(** * ArciumAPIService: a shallow embedding of the remote-client component

    The service (src/src/arcium/arcium-api.controller.ts, class
    [ArciumAPIService]) is asynchronous TypeScript: it talks to a remote
    network over HTTP, reads the wall clock, sleeps on a timer and calls the
    platform's cryptography.  It is embedded here as a state-and-exception
    monad over an explicit environment:

    - [Env] holds what the program cannot decide: the reply the network gives
      to the n-th HTTP request, how late the n-th timer fires, what the n-th
      use of the crypto module produces, and the runtime's conversions between
      numbers, dates and strings;
    - [State] holds what the program changes: the clock, the requests sent,
      the timers awaited, the crypto calls made and the lines logged.

    [await] is sequencing, a rejected promise is a thrown exception. *)

From Stdlib Require Import ZArith QArith List String Ascii Bool Lia.
From Stdlib Require Import DecimalString.
Import ListNotations.

Local Open Scope string_scope.
Local Open Scope Z_scope.

(** ** JavaScript values

    Every value typed [any] in the service comes out of a JSON body, or is
    [undefined] because a property is absent.  Numbers are kept as exact
    rationals: the service only tests them for truthiness, compares a length
    with zero and passes them on.  Strings are sequences of code units. *)

#[warnings="-register-all"]
Inductive JsValue : Type :=
| JUndefined
| JNull
| JBool (b : bool)
| JNum (q : Q)
| JStr (s : string)
| JArr (items : list JsValue)
| JObj (fields : list (string * JsValue)).

(** ToBoolean *)
Definition truthy (v : JsValue) : bool :=
  match v with
  | JUndefined | JNull => false
  | JBool b => b
  | JNum q => negb (Qeq_bool q 0)
  | JStr s => negb (s =? "")%string
  | JArr _ | JObj _ => true
  end.

(** [a || b] *)
Definition js_or (a b : JsValue) : JsValue := if truthy a then a else b.

(** [v === 'literal'] *)
Definition strictEqStr (v : JsValue) (lit : string) : bool :=
  match v with
  | JStr s => (s =? lit)%string
  | _ => false
  end.

Definition lookup (k : string) (fields : list (string * JsValue)) : JsValue :=
  match find (fun kv => (fst kv =? k)%string) fields with
  | Some kv => snd kv
  | None => JUndefined
  end.

Definition num (z : Z) : JsValue := JNum (inject_Z z).

Definition indexKey (i : nat) : string := NilZero.string_of_uint (Nat.to_uint i).

(** [v.k] on a value that is neither [undefined] nor [null] *)
Definition propOf (v : JsValue) (k : string) : JsValue :=
  match v with
  | JObj fields => lookup k fields
  | JArr items =>
      if (k =? "length")%string then num (Z.of_nat (List.length items)) else JUndefined
  | JStr s =>
      if (k =? "length")%string then num (Z.of_nat (String.length s)) else JUndefined
  | _ => JUndefined
  end.

(** [v[i]] on a value that is neither [undefined] nor [null] *)
Definition itemOf (v : JsValue) (i : nat) : JsValue :=
  match v with
  | JArr items => nth i items JUndefined
  | JStr s =>
      match String.get i s with
      | Some c => JStr (String c EmptyString)
      | None => JUndefined
      end
  | JObj fields => lookup (indexKey i) fields
  | _ => JUndefined
  end.

Definition nullish (v : JsValue) : bool :=
  match v with
  | JUndefined | JNull => true
  | _ => false
  end.

(** ** Exceptions *)

Inductive ErrorKind := PlainError | TypeError | AxiosError.

Record JsError := { kind : ErrorKind; message : string }.

Definition mkError (msg : string) : JsError := {| kind := PlainError; message := msg |}.

(** ** The HTTP client, the timer, the crypto module *)

Inductive Method := GET | POST.

Record Request := { method : Method; url : string; body : JsValue }.

Record Response := { status : Z; data : JsValue }.

(** axios rejects on a transport failure, on its 30 s timeout and on a status
    outside 2xx; otherwise the promise is fulfilled with the response. *)
Inductive HttpResult :=
| Rejected (e : JsError)
| Fulfilled (r : Response).

(** A call takes [latency] milliseconds, a natural number: the clock does
    not run backwards while the service waits. *)
Record Reply := { latency : N; result : HttpResult }.

Record EncryptedInputs := { ciphertext : string; nonce : string; publicKey : string }.

(** [sealed = inl e]: some call into the crypto module threw [e]. *)
Record CryptoReply := { took : N; sealed : JsError + EncryptedInputs }.

Record Env := {
  net : nat -> Request -> Reply;
  timerLag : nat -> N;
  cipher : nat -> list JsValue -> JsValue -> CryptoReply;
  numberToString : Q -> string;
  stringToNumber : string -> option Q;
  toISOString : Z -> string
}.

Inductive Level := LOG | ERROR.

Record State := {
  clock : Z;
  sent : list Request;
  slept : nat;
  ciphered : nat;
  logged : list (Level * string)
}.

(** ** The monad

    A computation returns, throws, or runs out of the fuel that bounds the
    one loop of the service ([Diverged], which no [catch] sees). *)

Inductive Outcome (A : Type) : Type :=
| Returned (a : A)
| Thrown (e : JsError)
| Diverged.

Arguments Returned {A} a.
Arguments Thrown {A} e.
Arguments Diverged {A}.

Definition M (A : Type) : Type := State -> Outcome A * State.

Definition ret {A} (a : A) : M A := fun s => (Returned a, s).

Definition throw {A} (e : JsError) : M A := fun s => (Thrown e, s).

Definition diverge {A} : M A := fun s => (Diverged, s).

Definition bind {A B} (m : M A) (k : A -> M B) : M B :=
  fun s =>
    match m s with
    | (Returned a, s') => k a s'
    | (Thrown e, s') => (Thrown e, s')
    | (Diverged, s') => (Diverged, s')
    end.

(** [try { m } catch (error) { h error }] *)
Definition tryCatch {A} (m : M A) (h : JsError -> M A) : M A :=
  fun s =>
    match m s with
    | (Thrown e, s') => h e s'
    | r => r
    end.

Declare Scope js_scope.
Delimit Scope js_scope with js.
Notation "x <- m ;; k" := (bind m (fun x => k))
  (at level 61, m at next level, right associativity) : js_scope.
Notation "m ;;; k" := (bind m (fun _ => k))
  (at level 61, right associativity) : js_scope.
Local Open Scope js_scope.

(** ** Data model of the service *)

Record ArciumComputationRequest := {
  functionName : string;
  inputs : list JsValue;
  metadata : JsValue
}.

(** [r_error], [r_computationId], [r_gasUsed] are optional properties;
    [r_result] is [JUndefined] when absent. *)
Record ArciumComputationResult := {
  r_success : bool;
  r_result : JsValue;
  r_computationId : option JsValue;
  r_error : option string;
  r_executionTime : Z;
  r_gasUsed : option JsValue
}.

Record ArciumNetworkStatus := {
  connected : JsValue;
  activeNodes : JsValue;
  averageLatency : JsValue;
  networkHealth : JsValue;
  mxeCount : JsValue;
  totalComputations : JsValue
}.

Record ArciumComputationStatus := {
  cs_id : JsValue;
  cs_status : JsValue;
  cs_progress : JsValue;
  cs_result : JsValue;
  cs_error : JsValue;
  cs_createdAt : JsValue;
  cs_completedAt : JsValue
}.

Record Mxe := { mxe_id : JsValue; mxe_publicKey : JsValue; mxe_capacity : JsValue }.

Record WaitResult := { w_data : JsValue; w_gasUsed : JsValue }.

Record RiskAssessment := {
  riskScore : JsValue;
  approved : JsValue;
  maxAmount : JsValue;
  confidence : JsValue
}.

Record CollateralValidation := {
  valid : JsValue;
  ratio : JsValue;
  requiredRatio : JsValue
}.

Record InterestCalculation := {
  interest : JsValue;
  totalAmount : JsValue;
  monthlyPayment : JsValue
}.

Record CostEstimate := {
  estimatedGas : JsValue;
  estimatedCost : JsValue;
  estimatedTime : JsValue
}.

Definition maxWaitTime : Z := 300000.
Definition pollInterval : Z := 5000.

(** ** The service *)

Section ArciumAPIService.

Variable env : Env.

(** String(v), as a template literal applies it, for the values on which
    the conversion returns (see [convertible] below) *)
Fixpoint ToString (v : JsValue) : string :=
  match v with
  | JUndefined => "undefined"
  | JNull => "null"
  | JBool true => "true"
  | JBool false => "false"
  | JNum q => numberToString env q
  | JStr s => s
  | JArr items =>
      String.concat ","
        (map (fun x => match x with
                       | JUndefined | JNull => ""
                       | _ => ToString x
                       end) items)
  | JObj _ => "[object Object]"
  end.

(** Number(v); [None] is NaN *)
Definition ToNumber (v : JsValue) : option Q :=
  match v with
  | JUndefined => None
  | JNull => Some 0%Q
  | JBool b => Some (if b then 1%Q else 0%Q)
  | JNum q => Some q
  | JStr s => stringToNumber env s
  | JArr _ => stringToNumber env (ToString v)
  | JObj _ => None
  end.

(** [v > 0] *)
Definition gtZero (v : JsValue) : bool :=
  match ToNumber v with
  | Some q => negb (Qle_bool q 0)
  | None => false
  end.

(** Whether String(v) returns.  A parsed object that has a key [toString]
    of its own hides [Object.prototype.toString] behind a value that cannot
    be called, and the conversion throws; an array converts its elements,
    [null] and [undefined] excepted.  [ToString] above is the text for the
    values that convert. *)
Fixpoint convertible (v : JsValue) : bool :=
  match v with
  | JArr items =>
      forallb (fun x => match x with
                        | JUndefined | JNull => true
                        | _ => convertible x
                        end) items
  | JObj fields => negb (existsb (fun kv => (fst kv =? "toString")%string) fields)
  | _ => true
  end.

Definition conversionError : JsError :=
  {| kind := TypeError; message := "Cannot convert object to primitive value" |}.

(** [`${v}`] for a value that comes out of a response body *)
Definition template (v : JsValue) : M string :=
  if convertible v then ret (ToString v) else throw conversionError.

Definition readError (v : JsValue) (k : string) : JsError :=
  {| kind := TypeError;
     message := "Cannot read properties of " ++ ToString v ++ " (reading '" ++ k ++ "')" |}.

(** [v.k] *)
Definition getProp (v : JsValue) (k : string) : M JsValue :=
  if nullish v then throw (readError v k) else ret (propOf v k).

(** [v[i]] *)
Definition getIndex (v : JsValue) (i : nat) : M JsValue :=
  if nullish v then throw (readError v (indexKey i)) else ret (itemOf v i).

(** [Date.now()] *)
Definition dateNow : M Z := fun s => (Returned (clock s), s).

(** [new Date().toISOString()] *)
Definition isoNow : M string := fun s => (Returned (toISOString env (clock s)), s).

Definition noted (lvl : Level) (msg : string) (s : State) : State :=
  {| clock := clock s; sent := sent s; slept := slept s;
     ciphered := ciphered s; logged := (lvl, msg) :: logged s |}.

Definition logger (lvl : Level) (msg : string) : M unit :=
  fun s => (Returned tt, noted lvl msg s).

(** [await this.httpClient.get/post(...)]: the request is recorded, the
    clock moves by the call's latency, the promise settles. *)
Definition requested (req : Request) (s : State) : State :=
  {| clock := clock s + Z.of_N (latency (net env (List.length (sent s)) req));
     sent := req :: sent s; slept := slept s;
     ciphered := ciphered s; logged := logged s |}.

Definition httpClient (req : Request) : M Response :=
  fun s =>
    match result (net env (List.length (sent s)) req) with
    | Rejected e => (Thrown e, requested req s)
    | Fulfilled r => (Returned r, requested req s)
    end.

Definition httpGet (u : string) : M Response :=
  httpClient {| method := GET; url := u; body := JUndefined |}.

Definition httpPost (u : string) (b : JsValue) : M Response :=
  httpClient {| method := POST; url := u; body := b |}.

(** [await new Promise((resolve) => setTimeout(resolve, ms))]: a timer fires
    no earlier than asked. *)
Definition awoken (ms : Z) (s : State) : State :=
  {| clock := clock s + ms + Z.of_N (timerLag env (slept s));
     sent := sent s; slept := S (slept s);
     ciphered := ciphered s; logged := logged s |}.

Definition sleep (ms : Z) : M unit :=
  fun s => (Returned tt, awoken ms s).

(** The body of the [try] of [encryptInputs]: key pair, JSON.stringify,
    randomBytes, createCipher/update/final. *)
Definition cryptoSeal (ins : list JsValue) (mxePublicKey : JsValue) : M EncryptedInputs :=
  fun s =>
    let reply := cipher env (ciphered s) ins mxePublicKey in
    let s' := {| clock := clock s + Z.of_N (took reply);
                 sent := sent s; slept := slept s;
                 ciphered := S (ciphered s); logged := logged s |} in
    match sealed reply with
    | inr e => (Returned e, s')
    | inl err => (Thrown err, s')
    end.

Definition getAvailableMXE : M (option Mxe) :=
  tryCatch
    (response <- httpGet "/api/v1/mxe/available" ;;
     if truthy (data response) then
       len <- getProp (data response) "length" ;;
       if gtZero len then
         mxe <- getIndex (data response) 0 ;;
         i <- getProp mxe "id" ;;
         pk <- getProp mxe "publicKey" ;;
         cap <- getProp mxe "capacity" ;;
         ret (Some {| mxe_id := i; mxe_publicKey := pk; mxe_capacity := cap |})
       else ret None
     else ret None)
    (fun error =>
       logger ERROR "Failed to get available MXE" ;;;
       ret None).

Definition encryptInputs (ins : list JsValue) (mxePublicKey : JsValue)
  : M EncryptedInputs :=
  tryCatch
    (cryptoSeal ins mxePublicKey)
    (fun error =>
       logger ERROR "Failed to encrypt inputs" ;;;
       throw (mkError "Input encryption failed")).

Definition encryptedInputsValue (e : EncryptedInputs) : JsValue :=
  JObj [("ciphertext", JStr (ciphertext e));
        ("nonce", JStr (nonce e));
        ("publicKey", JStr (publicKey e))].

Definition submitComputation (mxeId : JsValue) (fn : string)
    (encrypted : EncryptedInputs) (meta : JsValue) : M JsValue :=
  tryCatch
    (ts <- isoNow ;;
     response <- httpPost "/api/v1/computations"
       (JObj [("mxeId", mxeId);
              ("functionName", JStr fn);
              ("encryptedInputs", encryptedInputsValue encrypted);
              ("metadata", meta);
              ("timestamp", JStr ts)]) ;;
     if truthy (data response) then
       cid <- getProp (data response) "computationId" ;;
       if truthy cid then ret cid
       else throw (mkError "Failed to get computation ID from response")
     else throw (mkError "Failed to get computation ID from response"))
    (fun error =>
       logger ERROR "Failed to submit computation" ;;;
       throw (mkError "Computation submission failed")).

(** The identifier is a string by the declared types
    ([submitComputation] is a [Promise<string>]). *)
Definition statusUrl (computationId : JsValue) : string :=
  "/api/v1/computations/" ++ ToString computationId.

Definition getComputationStatus (computationId : JsValue)
  : M ArciumComputationStatus :=
  tryCatch
    (response <- httpGet (statusUrl computationId) ;;
     st <- getProp (data response) "status" ;;
     pr <- getProp (data response) "progress" ;;
     res <- getProp (data response) "result" ;;
     err <- getProp (data response) "error" ;;
     cr <- getProp (data response) "createdAt" ;;
     co <- getProp (data response) "completedAt" ;;
     ret {| cs_id := computationId;
            cs_status := st;
            cs_progress := js_or pr (num 0);
            cs_result := res;
            cs_error := err;
            cs_createdAt := cr;
            cs_completedAt := co |})
    (fun error =>
       logger ERROR "Failed to get computation status" ;;;
       throw (mkError "Failed to retrieve computation status")).

(** One turn of the [while] of [waitForComputationCompletion]: the [try]
    either leaves the function with a value ([inl]) or falls through to the
    next test of the loop condition ([inr]). *)
Definition pollOnce (computationId : JsValue) : M (WaitResult + unit) :=
  tryCatch
    (st <- getComputationStatus computationId ;;
     if strictEqStr (cs_status st) "completed" then
       ret (inl {| w_data := cs_result st; w_gasUsed := num 0 |})
     else if strictEqStr (cs_status st) "failed" then
       reason <- template (cs_error st) ;;
       throw (mkError ("Computation failed: " ++ reason))
     else
       sleep pollInterval ;;;
       ret (inr tt))
    (fun error =>
       logger ERROR "Error polling computation status" ;;;
       throw error).

Fixpoint waitLoop (fuel : nat) (startTime : Z) (computationId : JsValue)
  : M WaitResult :=
  match fuel with
  | O => diverge
  | S fuel' =>
      now <- dateNow ;;
      if now - startTime <? maxWaitTime then
        r <- pollOnce computationId ;;
        match r with
        | inl done => ret done
        | inr _ => waitLoop fuel' startTime computationId
        end
      else throw (mkError "Computation timeout")
  end.

(** Every turn that falls through sleeps at least [pollInterval], so the
    condition is tested at most [maxWaitTime / pollInterval + 1] times
    ([waitLoop_total] below). *)
Definition waitFuel : nat := S (Z.to_nat (maxWaitTime / pollInterval)).

Definition waitForComputationCompletion (computationId : JsValue)
  : M WaitResult :=
  startTime <- dateNow ;;
  waitLoop waitFuel startTime computationId.

Definition failure (msg : string) (elapsed : Z) : ArciumComputationResult :=
  {| r_success := false;
     r_result := JUndefined;
     r_computationId := None;
     r_error := Some msg;
     r_executionTime := elapsed;
     r_gasUsed := None |}.

(** The [try] block of [performEncryptedComputation] (the check-mark glyph
    that opens the second log line is left out). *)
Definition computationSteps (startTime : Z) (request : ArciumComputationRequest)
  : M ArciumComputationResult :=
  logger LOG ("Starting encrypted computation: " ++ functionName request) ;;;
  found <- getAvailableMXE ;;
  match found with
  | None => throw (mkError "No available MXE found")
  | Some mxe =>
      encryptedInputs <- encryptInputs (inputs request) (mxe_publicKey mxe) ;;
      computationId <- submitComputation (mxe_id mxe) (functionName request)
                         encryptedInputs (metadata request) ;;
      res <- waitForComputationCompletion computationId ;;
      now <- dateNow ;;
      let executionTime := now - startTime in
      logger LOG ("Encrypted computation completed in "
                  ++ ToString (num executionTime) ++ "ms") ;;;
      ret {| r_success := true;
             r_result := w_data res;
             r_computationId := Some computationId;
             r_error := None;
             r_executionTime := executionTime;
             r_gasUsed := Some (js_or (w_gasUsed res) (num 0)) |}
  end.

(** The [catch] block of [performEncryptedComputation] *)
Definition computationFailed (startTime : Z) (error : JsError)
  : M ArciumComputationResult :=
  logger ERROR "Encrypted computation failed" ;;;
  now <- dateNow ;;
  ret (failure (message error) (now - startTime)).

Definition performEncryptedComputation (request : ArciumComputationRequest)
  : M ArciumComputationResult :=
  startTime <- dateNow ;;
  tryCatch (computationSteps startTime request) (computationFailed startTime).

Definition disconnected : ArciumNetworkStatus :=
  {| connected := JBool false;
     activeNodes := num 0;
     averageLatency := num 0;
     networkHealth := JStr "error";
     mxeCount := num 0;
     totalComputations := num 0 |}.

Definition getNetworkStatus : M ArciumNetworkStatus :=
  tryCatch
    (response <- httpGet "/api/v1/network/status" ;;
     c <- getProp (data response) "connected" ;;
     a <- getProp (data response) "activeNodes" ;;
     l <- getProp (data response) "averageLatency" ;;
     h <- getProp (data response) "health" ;;
     m <- getProp (data response) "mxeCount" ;;
     t <- getProp (data response) "totalComputations" ;;
     ret {| connected := js_or c (JBool false);
            activeNodes := js_or a (num 0);
            averageLatency := js_or l (num 0);
            networkHealth := js_or h (JStr "unknown");
            mxeCount := js_or m (num 0);
            totalComputations := js_or t (num 0) |})
    (fun error =>
       logger ERROR "Failed to get network status" ;;;
       ret disconnected).

(** [`${result.error}`] for the optional [error] property *)
Definition errorText (e : option string) : string :=
  match e with
  | Some msg => msg
  | None => "undefined"
  end.

Definition stamped (type : string) (ts : string) : JsValue :=
  JObj [("type", JStr type); ("timestamp", JStr ts)].

Definition riskRequest (encryptedParams : JsValue) (ts : string)
  : ArciumComputationRequest :=
  {| functionName := "riskAssessment";
     inputs := [encryptedParams];
     metadata := stamped "risk_assessment" ts |}.

Definition performEncryptedRiskAssessment (encryptedParams : JsValue)
  : M RiskAssessment :=
  ts <- isoNow ;;
  res <- performEncryptedComputation (riskRequest encryptedParams ts) ;;
  if negb (r_success res) then
    throw (mkError ("Risk assessment failed: " ++ errorText (r_error res)))
  else
    x0 <- getIndex (r_result res) 0 ;;
    x1 <- getIndex (r_result res) 1 ;;
    x2 <- getIndex (r_result res) 2 ;;
    x3 <- getIndex (r_result res) 3 ;;
    ret {| riskScore := js_or x0 (num 50);
           approved := js_or x1 (JBool false);
           maxAmount := js_or x2 (num 0);
           confidence := js_or x3 (JNum (1 # 2)) |}.

Definition collateralRequest (collateralValue loanAmount : JsValue) (ts : string)
  : ArciumComputationRequest :=
  {| functionName := "collateralValidation";
     inputs := [collateralValue; loanAmount];
     metadata := stamped "collateral_validation" ts |}.

Definition performEncryptedCollateralValidation (collateralValue loanAmount : JsValue)
  : M CollateralValidation :=
  ts <- isoNow ;;
  res <- performEncryptedComputation (collateralRequest collateralValue loanAmount ts) ;;
  if negb (r_success res) then
    throw (mkError ("Collateral validation failed: " ++ errorText (r_error res)))
  else
    x0 <- getIndex (r_result res) 0 ;;
    x1 <- getIndex (r_result res) 1 ;;
    x2 <- getIndex (r_result res) 2 ;;
    ret {| valid := js_or x0 (JBool false);
           ratio := js_or x1 (num 0);
           requiredRatio := js_or x2 (JNum (3 # 2)) |}.

Definition interestRequest (principal rate time : JsValue) (ts : string)
  : ArciumComputationRequest :=
  {| functionName := "interestCalculation";
     inputs := [principal; rate; time];
     metadata := stamped "interest_calculation" ts |}.

Definition performEncryptedInterestCalculation (principal rate time : JsValue)
  : M InterestCalculation :=
  ts <- isoNow ;;
  res <- performEncryptedComputation (interestRequest principal rate time ts) ;;
  if negb (r_success res) then
    throw (mkError ("Interest calculation failed: " ++ errorText (r_error res)))
  else
    x0 <- getIndex (r_result res) 0 ;;
    x1 <- getIndex (r_result res) 1 ;;
    x2 <- getIndex (r_result res) 2 ;;
    ret {| interest := js_or x0 (num 0);
           totalAmount := js_or x1 (num 0);
           monthlyPayment := js_or x2 (num 0) |}.

(** [limit: number = 50]: the default applies when the argument is
    [undefined]. *)
Definition getComputationHistory (limit : JsValue) : M JsValue :=
  let limit := match limit with JUndefined => num 50 | _ => limit end in
  tryCatch
    (response <- httpGet ("/api/v1/computations?limit=" ++ ToString limit) ;;
     ret (js_or (data response) (JArr [])))
    (fun error =>
       logger ERROR "Failed to get computation history" ;;;
       ret (JArr [])).

Definition knownFunctions : JsValue :=
  JArr [JStr "riskAssessment"; JStr "collateralValidation"; JStr "interestCalculation"].

Definition getAvailableFunctions : M JsValue :=
  tryCatch
    (response <- httpGet "/api/v1/functions" ;;
     ret (js_or (data response) (JArr [])))
    (fun error =>
       logger ERROR "Failed to get available functions" ;;;
       ret knownFunctions).

Definition fixedEstimate : CostEstimate :=
  {| estimatedGas := num 100000;
     estimatedCost := JNum (1 # 1000);
     estimatedTime := num 1000 |}.

Definition estimateBody (request : ArciumComputationRequest) : JsValue :=
  JObj [("functionName", JStr (functionName request));
        ("inputCount", num (Z.of_nat (List.length (inputs request))));
        ("metadata", metadata request)].

Definition estimateComputationCost (request : ArciumComputationRequest)
  : M CostEstimate :=
  tryCatch
    (response <- httpPost "/api/v1/computations/estimate" (estimateBody request) ;;
     g <- getProp (data response) "estimatedGas" ;;
     c <- getProp (data response) "estimatedCost" ;;
     t <- getProp (data response) "estimatedTime" ;;
     ret {| estimatedGas := js_or g (num 100000);
            estimatedCost := js_or c (JNum (1 # 1000));
            estimatedTime := js_or t (num 1000) |})
    (fun error =>
       logger ERROR "Failed to estimate computation cost" ;;;
       ret fixedEstimate).

Definition healthCheck : M bool :=
  tryCatch
    (response <- httpGet "/api/v1/health" ;;
     ret (status response =? 200))
    (fun error =>
       logger ERROR "Arcium API health check failed" ;;;
       ret false).

End ArciumAPIService.

(** ** The gateway (src/unnamed/part_000, class [ArciumAPIController])

    Every handler calls one operation of the service on the fields of its
    body and returns what it gets; only the health handler wraps the
    value. *)

Module ArciumAPIController.

Record RiskAssessmentDto := { encryptedParams : JsValue }.

Record CollateralValidationDto := { collateralValue : JsValue; loanAmount : JsValue }.

Record InterestCalculationDto := { principal : JsValue; rate : JsValue; time : JsValue }.

Record Health := { healthy : bool }.

Definition performEncryptedComputation (env : Env)
    (request : ArciumComputationRequest) : M ArciumComputationResult :=
  performEncryptedComputation env request.

Definition performEncryptedRiskAssessment (env : Env) (dto : RiskAssessmentDto)
  : M RiskAssessment :=
  performEncryptedRiskAssessment env (encryptedParams dto).

Definition performEncryptedCollateralValidation (env : Env)
    (dto : CollateralValidationDto) : M CollateralValidation :=
  performEncryptedCollateralValidation env (collateralValue dto) (loanAmount dto).

Definition performEncryptedInterestCalculation (env : Env)
    (dto : InterestCalculationDto) : M InterestCalculation :=
  performEncryptedInterestCalculation env (principal dto) (rate dto) (time dto).

Definition getComputationStatus (env : Env) (computationId : JsValue)
  : M ArciumComputationStatus :=
  getComputationStatus env computationId.

Definition getNetworkStatus (env : Env) : M ArciumNetworkStatus :=
  getNetworkStatus env.

(** [@Query('limit') limit?: number]: [JUndefined] when the query has none *)
Definition getComputationHistory (env : Env) (limit : JsValue) : M JsValue :=
  getComputationHistory env limit.

Definition estimateComputationCost (env : Env)
    (request : ArciumComputationRequest) : M CostEstimate :=
  estimateComputationCost env request.

Definition getAvailableFunctions (env : Env) : M JsValue :=
  getAvailableFunctions env.

Definition healthCheck (env : Env) : M Health :=
  h <- healthCheck env ;;
  ret {| healthy := h |}.

End ArciumAPIController.

(** ** What a run is observed through *)

Definition mxeRequest : Request :=
  {| method := GET; url := "/api/v1/mxe/available"; body := JUndefined |}.

Definition networkRequest : Request :=
  {| method := GET; url := "/api/v1/network/status"; body := JUndefined |}.

Definition healthRequest : Request :=
  {| method := GET; url := "/api/v1/health"; body := JUndefined |}.

Definition functionsRequest : Request :=
  {| method := GET; url := "/api/v1/functions"; body := JUndefined |}.

(** What one status poll amounts to for the wait loop, read off the reply
    the way [getComputationStatus] and [pollOnce] read it: a rejected request
    or a body that is [undefined]/[null] breaks the poll, otherwise the
    [status] property decides. *)
Inductive PollView :=
| Continues
| Completes (payload : JsValue)
| Fails (error : JsValue)
| Breaks.

Definition pollView (r : Reply) : PollView :=
  match result r with
  | Rejected _ => Breaks
  | Fulfilled resp =>
      if nullish (data resp) then Breaks
      else if strictEqStr (propOf (data resp) "status") "completed"
           then Completes (propOf (data resp) "result")
      else if strictEqStr (propOf (data resp) "status") "failed"
           then Fails (propOf (data resp) "error")
      else Continues
  end.

Section Observations.

Variable env : Env.

Definition historyRequest (limit : JsValue) : Request :=
  {| method := GET;
     url := "/api/v1/computations?limit=" ++ ToString env limit;
     body := JUndefined |}.

Definition statusRequest (computationId : JsValue) : Request :=
  {| method := GET; url := statusUrl env computationId; body := JUndefined |}.

(** The reply the network gives to a status poll issued in state [s] *)
Definition pollReply (computationId : JsValue) (s : State) : Reply :=
  net env (List.length (sent s)) (statusRequest computationId).

(** The state after a poll that saw a non-terminal status and slept *)
Definition polledOn (computationId : JsValue) (s : State) : State :=
  awoken env pollInterval (requested env (statusRequest computationId) s).





(** Steps (a)-(c) of [performEncryptedComputation], as its [try] block runs
    them: find a node, encrypt the inputs, submit the job.  The value is the
    computation identifier the wait starts from. *)
Definition stepsToSubmission (request : ArciumComputationRequest) : M JsValue :=
  logger LOG ("Starting encrypted computation: " ++ functionName request) ;;;
  found <- getAvailableMXE env ;;
  match found with
  | None => throw (mkError "No available MXE found")
  | Some mxe =>
      encryptedInputs <- encryptInputs env (inputs request) (mxe_publicKey mxe) ;;
      submitComputation env (mxe_id mxe) (functionName request)
        encryptedInputs (metadata request)
  end.

(** Steps (a)-(c) went through from [s]: the job got [computationId] and the
    wait starts in [s3]. *)
Definition submitted (request : ArciumComputationRequest) (s : State)
    (computationId : JsValue) (s3 : State) : Prop :=
  stepsToSubmission request s = (Returned computationId, s3).

(** What a poll that reports 'failed' with the remote error [err] throws *)
Definition failedPoll (err : JsValue) : JsError :=
  if convertible err
  then mkError ("Computation failed: " ++ ToString env err)
  else conversionError.

(** Position [i] of a result array is missing or holds a falsy value *)
Definition missingOrFalsy (items : list JsValue) (i : nat) : bool :=
  negb (truthy (nth i items JUndefined)).

Definition estimateRequest (request : ArciumComputationRequest) : Request :=
  {| method := POST;
     url := "/api/v1/computations/estimate";
     body := estimateBody request |}.

(** The request [submitComputation] sends from state [s] *)
Definition submitRequest (mxeId : JsValue) (fn : string)
    (encrypted : EncryptedInputs) (meta : JsValue) (s : State) : Request :=
  {| method := POST;
     url := "/api/v1/computations";
     body := JObj [("mxeId", mxeId);
                   ("functionName", JStr fn);
                   ("encryptedInputs", encryptedInputsValue encrypted);
                   ("metadata", meta);
                   ("timestamp", JStr (toISOString env (clock s)))] |}.

(** The state after one use of the crypto module *)
Definition ciphering (ins : list JsValue) (key : JsValue) (s : State) : State :=
  {| clock := clock s + Z.of_N (took (cipher env (ciphered s) ins key));
     sent := sent s; slept := slept s;
     ciphered := S (ciphered s); logged := logged s |}.

(** The clock does not go back over [m] *)
Definition forward {A} (m : M A) : Prop :=
  forall s o s', m s = (o, s') -> clock s <= clock s'.

(** [m] never runs out of fuel *)
Definition total {A} (m : M A) : Prop :=
  forall s, fst (m s) <> Diverged.

End Observations.

(** ** Scenarios: concrete networks the statements are tried on *)

Definition ok (l : N) (d : JsValue) : Reply :=
  {| latency := l; result := Fulfilled {| status := 200; data := d |} |}.

Definition down (l : N) : Reply :=
  {| latency := l;
     result := Rejected {| kind := AxiosError; message := "Network Error" |} |}.

Definition oneMxe : JsValue :=
  JArr [JObj [("id", JStr "mxe-1"); ("publicKey", JStr "pk"); ("capacity", num 4)]].

Definition accepted : JsValue := JObj [("computationId", JStr "c-1")].

Definition pending : JsValue := JObj [("status", JStr "pending"); ("progress", num 0)].

Definition processing : JsValue :=
  JObj [("status", JStr "processing"); ("progress", num 50)].

Definition completedWith (payload : JsValue) : JsValue :=
  JObj [("status", JStr "completed"); ("progress", num 100); ("result", payload)].

(** A completed status that also reports the gas the network used *)
Definition billed (payload : JsValue) (gas : Z) : JsValue :=
  JObj [("status", JStr "completed"); ("result", payload); ("gasUsed", num gas)].

(** A completed status without a [result] property *)
Definition completedBare : JsValue := JObj [("status", JStr "completed")].

Definition failedWith (msg : string) : JsValue :=
  JObj [("status", JStr "failed"); ("error", JStr msg)].

Definition runtime (replies : nat -> Request -> Reply) : Env :=
  {| net := replies;
     timerLag := fun _ => 0%N;
     cipher := fun _ _ _ =>
       {| took := 0%N;
          sealed := inr {| ciphertext := "00"; nonce := "00"; publicKey := "pem" |} |};
     numberToString := fun q => indexKey (Z.to_nat (Qnum q / Zpos (Qden q)));
     stringToNumber := fun _ => None;
     toISOString := fun _ => "1970-01-01T00:00:00.000Z" |}.

Definition script (replies : list Reply) : nat -> Request -> Reply :=
  fun n _ => nth n replies (down 0).

Definition idle : State :=
  {| clock := 0; sent := []; slept := 0%nat; ciphered := 0%nat; logged := [] |}.

Definition someRequest : ArciumComputationRequest :=
  {| functionName := "riskAssessment"; inputs := [num 7]; metadata := JUndefined |}.

(** A job that is accepted and answers its polls with [statuses], then with
    [last] for ever *)
Definition job (statuses : list JsValue) (last : Reply) : Env :=
  runtime (fun n _ =>
             nth n (ok 0 oneMxe :: ok 0 accepted :: map (ok 0) statuses) last).





(** A network that gives every request the same answer *)
Definition steady (answer : JsValue) (l : N) : Env :=
  runtime (fun _ _ => ok l answer).

(** Never terminal, every poll taking 4999 ms *)
Definition stuckSlowJob : Env := steady pending 4999.


(** Never terminal, no latency *)
Definition stuckJob : Env := steady pending 0.


(** What a job that completed at its first poll with [payload] makes
    [performEncryptedComputation] return *)
Definition succeededWith (payload : JsValue) : ArciumComputationResult :=
  {| r_success := true;
     r_result := payload;
     r_computationId := Some (JStr "c-1");
     r_error := None;
     r_executionTime := 0;
     r_gasUsed := Some (num 0) |}.

(** A runtime whose crypto module throws, as a Node.js release without
    [crypto.createCipher] does *)
Definition brokenCrypto : Env :=
  {| net := script [ok 0 oneMxe; ok 0 accepted];
     timerLag := fun _ => 0%N;
     cipher := fun _ _ _ =>
       {| took := 0%N;
          sealed := inl {| kind := TypeError;
                           message := "crypto.createCipher is not a function" |} |};
     numberToString := fun q => indexKey (Z.to_nat (Qnum q / Zpos (Qden q)));
     stringToNumber := fun _ => None;
     toISOString := fun _ => "1970-01-01T00:00:00.000Z" |}.

(** Two nodes listed, the first with no capacity left; the job completes at
    its second poll *)
Definition twoNodes : Env :=
  runtime (script [ok 0 (JArr [JObj [("id", JStr "mxe-1"); ("publicKey", JStr "pk");
                                     ("capacity", num 0)];
                               JObj [("id", JStr "mxe-2"); ("publicKey", JStr "pk2");
                                     ("capacity", num 9)]]);
                   ok 0 accepted; ok 0 pending; ok 0 (completedWith (JArr [num 1]))]).

(** ** Equations of the primitives *)

Lemma httpClient_fulfilled env req s r :
  result (net env (List.length (sent s)) req) = Fulfilled r ->
  httpClient env req s = (Returned r, requested env req s).
Proof. intros H. unfold httpClient. now rewrite H. Qed.

Lemma httpClient_rejected env req s e :
  result (net env (List.length (sent s)) req) = Rejected e ->
  httpClient env req s = (Thrown e, requested env req s).
Proof. intros H. unfold httpClient. now rewrite H. Qed.

Lemma getComputationStatus_rejected env computationId s e :
  result (pollReply env computationId s) = Rejected e ->
  getComputationStatus env computationId s
  = (Thrown (mkError "Failed to retrieve computation status"),
     noted ERROR "Failed to get computation status"
       (requested env (statusRequest env computationId) s)).
Proof.
  intros H. unfold getComputationStatus, httpGet, tryCatch, bind.
  rewrite (httpClient_rejected env _ _ e) by exact H. reflexivity.
Qed.

Lemma bind_returned {A B} (m : M A) (k : A -> M B) s b s' :
  bind m k s = (Returned b, s') ->
  exists a s1, m s = (Returned a, s1) /\ k a s1 = (Returned b, s').
Proof.
  unfold bind. destruct (m s) as [[a | e |] s1]; intros H; try discriminate.
  now exists a, s1.
Qed.

(** ** Runs on concrete networks *)

(** pending, processing, completed: the payload comes back after two sleeps. *)
Example run_completes :
  fst (performEncryptedComputation
         (job [pending; processing; completedWith (JArr [num 70; JBool true])] (down 0))
         someRequest idle)
  = Returned {| r_success := true;
                r_result := JArr [num 70; JBool true];
                r_computationId := Some (JStr "c-1");
                r_error := None;
                r_executionTime := 10000;
                r_gasUsed := Some (num 0) |}.
Proof. vm_compute. reflexivity. Qed.

(** A listing that is rejected is logged and reads as no node. *)
Example run_without_listing :
  fst (performEncryptedComputation (runtime (script [down 250])) someRequest idle)
  = Returned (failure "No available MXE found" 250).
Proof. vm_compute. reflexivity. Qed.

(** A submission that comes back without an identifier *)
Example run_not_accepted :
  fst (performEncryptedComputation
         (runtime (script [ok 10 oneMxe; ok 20 (JObj [])])) someRequest idle)
  = Returned (failure "Computation submission failed" 30).
Proof. vm_compute. reflexivity. Qed.

(** The risk wrapper on a two-entry result, and on a failed computation *)
Example risk_partial :
  fst (performEncryptedRiskAssessment
         (job [completedWith (JArr [num 70; JBool true])] (down 0)) (num 1) idle)
  = Returned {| riskScore := num 70; approved := JBool true;
                maxAmount := num 0; confidence := JNum (1 # 2) |}.
Proof. vm_compute. reflexivity. Qed.

Example risk_failed :
  fst (performEncryptedRiskAssessment
         (job [failedWith "bad input"] (down 0)) (num 1) idle)
  = Thrown (mkError "Risk assessment failed: Computation failed: bad input").
Proof. vm_compute. reflexivity. Qed.

(** ** Node discovery *)

(** C1. Whatever the request, when the node listing answers with an empty
    list, [performEncryptedComputation] returns (it does not throw) a result
    with [success: false], [error: "No available MXE found"] and an
    [executionTime] that is not negative. *)
Theorem no_node_yields_failed_result env request s r :
  result (net env (List.length (sent s)) mxeRequest) = Fulfilled r ->
  data r = JArr [] ->
  exists res s',
    performEncryptedComputation env request s = (Returned res, s')
    /\ r_success res = false
    /\ r_error res = Some "No available MXE found"
    /\ 0 <= r_executionTime res.
Proof.
  intros Hr Hd.
  unfold performEncryptedComputation, computationSteps, getAvailableMXE, httpGet.
  unfold bind at 1. unfold dateNow at 1. unfold tryCatch at 1.
  unfold bind at 1. unfold logger at 1. unfold bind at 1. unfold tryCatch at 1.
  unfold bind at 1.
  rewrite (httpClient_fulfilled env mxeRequest _ r) by exact Hr.
  rewrite Hd. cbn.
  eexists _, _. split; [reflexivity|]. cbn. repeat split. lia.
Qed.

Lemma no_node_yields_failed_result_witness :
  exists res s',
    performEncryptedComputation (runtime (script [ok 12 (JArr [])])) someRequest idle
    = (Returned res, s')
    /\ r_success res = false
    /\ r_error res = Some "No available MXE found"
    /\ 0 <= r_executionTime res.
Proof.
  apply (no_node_yields_failed_result
           (runtime (script [ok 12 (JArr [])])) someRequest idle
           {| status := 200; data := JArr [] |}); reflexivity.
Defined.

(** ** Accessors *)

(** C4. [getNetworkStatus] never throws: it always returns a value, and when
    the lookup is rejected, or its body cannot be read, the value is the
    fixed disconnected status, with [connected: false] and zero for the
    counts and the latency. *)
Theorem getNetworkStatus_never_raises env s :
  (exists v s', getNetworkStatus env s = (Returned v, s'))
  /\ (forall e,
        result (net env (List.length (sent s)) networkRequest) = Rejected e ->
        exists v s',
          getNetworkStatus env s = (Returned v, s')
          /\ connected v = JBool false
          /\ activeNodes v = num 0
          /\ averageLatency v = num 0
          /\ mxeCount v = num 0
          /\ totalComputations v = num 0
          /\ networkHealth v = JStr "error")
  /\ (forall r,
        result (net env (List.length (sent s)) networkRequest) = Fulfilled r ->
        nullish (data r) = true ->
        fst (getNetworkStatus env s) = Returned disconnected).
Proof.
  unfold getNetworkStatus, httpGet, tryCatch, bind, httpClient.
  fold networkRequest.
  destruct (result (net env (List.length (sent s)) networkRequest)) as [e | r] eqn:E.
  - split; [cbn; eexists _, _; reflexivity|]. split.
    + intros e' _. cbn. eexists _, _. split; [reflexivity|]. cbn. repeat split.
    + intros r' H; discriminate.
  - split; [|split].
    + unfold getProp. destruct (nullish (data r)); cbn; eexists _, _; reflexivity.
    + intros e H; discriminate.
    + intros r' H Hn. injection H as <-. unfold getProp. rewrite Hn. reflexivity.
Qed.

Lemma getNetworkStatus_never_raises_witness :
  exists v s',
    getNetworkStatus (runtime (script [down 30000])) idle = (Returned v, s')
    /\ connected v = JBool false
    /\ activeNodes v = num 0
    /\ averageLatency v = num 0
    /\ mxeCount v = num 0
    /\ totalComputations v = num 0
    /\ networkHealth v = JStr "error".
Proof.
  destruct (getNetworkStatus_never_raises (runtime (script [down 30000])) idle)
    as (_ & H & _).
  apply (H {| kind := AxiosError; message := "Network Error" |}).
  reflexivity.
Defined.

(** C6. When the request is rejected, [getComputationHistory] returns the
    empty list and [getAvailableFunctions] returns the three hardcoded
    function names; neither throws. *)
Theorem history_and_functions_default_on_failure env limit s :
  (forall e,
     result (net env (List.length (sent s))
               (historyRequest env
                  match limit with JUndefined => num 50 | _ => limit end))
     = Rejected e ->
     fst (getComputationHistory env limit s) = Returned (JArr []))
  /\ (forall e,
        result (net env (List.length (sent s)) functionsRequest) = Rejected e ->
        fst (getAvailableFunctions env s)
        = Returned (JArr [JStr "riskAssessment";
                          JStr "collateralValidation";
                          JStr "interestCalculation"])).
Proof.
  split; intros e H.
  - unfold getComputationHistory, httpGet, tryCatch, bind.
    rewrite (httpClient_rejected env _ _ e) by exact H. reflexivity.
  - unfold getAvailableFunctions, httpGet, tryCatch, bind.
    rewrite (httpClient_rejected env _ _ e) by exact H. reflexivity.
Qed.

Lemma history_and_functions_default_on_failure_witness :
  fst (getComputationHistory (runtime (script [])) JUndefined idle)
  = Returned (JArr [])
  /\ fst (getAvailableFunctions (runtime (script [])) idle)
     = Returned (JArr [JStr "riskAssessment";
                       JStr "collateralValidation";
                       JStr "interestCalculation"]).
Proof.
  destruct (history_and_functions_default_on_failure
              (runtime (script [])) JUndefined idle) as (H1 & H2).
  split.
  - apply (H1 {| kind := AxiosError; message := "Network Error" |}). reflexivity.
  - apply (H2 {| kind := AxiosError; message := "Network Error" |}). reflexivity.
Defined.

(** C7. When the single lookup of [getComputationStatus] is rejected, the
    call throws to its caller: an error of its own, "Failed to retrieve
    computation status", and no value is returned in its place. *)
Theorem getComputationStatus_propagates env computationId s e :
  result (pollReply env computationId s) = Rejected e ->
  getComputationStatus env computationId s
  = (Thrown (mkError "Failed to retrieve computation status"),
     noted ERROR "Failed to get computation status"
       (requested env (statusRequest env computationId) s)).
Proof.
  intros H. unfold getComputationStatus, httpGet, tryCatch, bind.
  rewrite (httpClient_rejected env _ _ e) by exact H. reflexivity.
Qed.

Lemma getComputationStatus_propagates_witness :
  getComputationStatus (runtime (script [down 5])) (JStr "c-1") idle
  = (Thrown (mkError "Failed to retrieve computation status"),
     noted ERROR "Failed to get computation status"
       (requested (runtime (script [down 5]))
          (statusRequest (runtime (script [down 5])) (JStr "c-1")) idle)).
Proof.
  apply (getComputationStatus_propagates
           (runtime (script [down 5])) (JStr "c-1") idle
           {| kind := AxiosError; message := "Network Error" |}).
  reflexivity.
Defined.

(** ** One status poll *)

Section Polling.

Variable env : Env.
Variable computationId : JsValue.

Let req := statusRequest env computationId.

Lemma getComputationStatus_reads s r :
  result (pollReply env computationId s) = Fulfilled r ->
  nullish (data r) = false ->
  getComputationStatus env computationId s
  = (Returned {| cs_id := computationId;
                 cs_status := propOf (data r) "status";
                 cs_progress := js_or (propOf (data r) "progress") (num 0);
                 cs_result := propOf (data r) "result";
                 cs_error := propOf (data r) "error";
                 cs_createdAt := propOf (data r) "createdAt";
                 cs_completedAt := propOf (data r) "completedAt" |},
     requested env req s).
Proof.
  intros H Hn. unfold getComputationStatus, httpGet, tryCatch, bind.
  rewrite (httpClient_fulfilled env _ _ r) by exact H.
  unfold getProp. rewrite Hn. reflexivity.
Qed.

Lemma getComputationStatus_unreadable s r :
  result (pollReply env computationId s) = Fulfilled r ->
  nullish (data r) = true ->
  getComputationStatus env computationId s
  = (Thrown (mkError "Failed to retrieve computation status"),
     noted ERROR "Failed to get computation status" (requested env req s)).
Proof.
  intros H Hn. unfold getComputationStatus, httpGet, tryCatch, bind.
  rewrite (httpClient_fulfilled env _ _ r) by exact H.
  unfold getProp. rewrite Hn. reflexivity.
Qed.

Lemma pollOnce_continues s :
  pollView (pollReply env computationId s) = Continues ->
  pollOnce env computationId s = (Returned (inr tt), polledOn env computationId s).
Proof.
  unfold pollView. intros H.
  destruct (result (pollReply env computationId s)) as [e | r] eqn:E; [discriminate|].
  destruct (nullish (data r)) eqn:Hn; [discriminate|].
  destruct (strictEqStr (propOf (data r) "status") "completed") eqn:Hc; [discriminate|].
  destruct (strictEqStr (propOf (data r) "status") "failed") eqn:Hf; [discriminate|].
  unfold pollOnce, tryCatch, bind.
  rewrite (getComputationStatus_reads s r E Hn). cbn [cs_status].
  rewrite Hc, Hf. reflexivity.
Qed.

Lemma pollOnce_completes s payload :
  pollView (pollReply env computationId s) = Completes payload ->
  pollOnce env computationId s
  = (Returned (inl {| w_data := payload; w_gasUsed := num 0 |}), requested env req s).
Proof.
  unfold pollView. intros H.
  destruct (result (pollReply env computationId s)) as [e | r] eqn:E; [discriminate|].
  destruct (nullish (data r)) eqn:Hn; [discriminate|].
  destruct (strictEqStr (propOf (data r) "status") "completed") eqn:Hc.
  - injection H as <-.
    unfold pollOnce, tryCatch, bind.
    rewrite (getComputationStatus_reads s r E Hn). cbn [cs_status cs_result].
    rewrite Hc. reflexivity.
  - destruct (strictEqStr (propOf (data r) "status") "failed"); discriminate.
Qed.

Lemma pollOnce_fails s err :
  pollView (pollReply env computationId s) = Fails err ->
  pollOnce env computationId s
  = (Thrown (failedPoll env err),
     noted ERROR "Error polling computation status" (requested env req s)).
Proof.
  unfold pollView. intros H.
  destruct (result (pollReply env computationId s)) as [e | r] eqn:E; [discriminate|].
  destruct (nullish (data r)) eqn:Hn; [discriminate|].
  destruct (strictEqStr (propOf (data r) "status") "completed") eqn:Hc; [discriminate|].
  destruct (strictEqStr (propOf (data r) "status") "failed") eqn:Hf; [|discriminate].
  injection H as <-.
  unfold pollOnce, tryCatch, bind.
  rewrite (getComputationStatus_reads s r E Hn). cbn [cs_status cs_error].
  rewrite Hc, Hf. unfold template, failedPoll.
  destruct (convertible (propOf (data r) "error")); reflexivity.
Qed.

Lemma pollOnce_breaks s :
  pollView (pollReply env computationId s) = Breaks ->
  pollOnce env computationId s
  = (Thrown (mkError "Failed to retrieve computation status"),
     noted ERROR "Error polling computation status"
       (noted ERROR "Failed to get computation status" (requested env req s))).
Proof.
  unfold pollView. intros H.
  destruct (result (pollReply env computationId s)) as [e | r] eqn:E.
  - unfold pollOnce, tryCatch, bind.
    rewrite (getComputationStatus_rejected env computationId s e E). reflexivity.
  - destruct (nullish (data r)) eqn:Hn.
    + unfold pollOnce, tryCatch, bind.
      rewrite (getComputationStatus_unreadable s r E Hn). reflexivity.
    + destruct (strictEqStr (propOf (data r) "status") "completed"); [discriminate|].
      destruct (strictEqStr (propOf (data r) "status") "failed"); discriminate.
Qed.

(** ** The wait loop, one turn at a time *)

Lemma waitLoop_expired fuel startTime s :
  maxWaitTime <= clock s - startTime ->
  waitLoop env (S fuel) startTime computationId s
  = (Thrown (mkError "Computation timeout"), s).
Proof.
  intros H. cbn [waitLoop]. unfold bind at 1. unfold dateNow.
  destruct (Z.ltb_spec (clock s - startTime) maxWaitTime); [lia|]. reflexivity.
Qed.

Lemma waitLoop_turn fuel startTime s :
  clock s - startTime < maxWaitTime ->
  waitLoop env (S fuel) startTime computationId s
  = match pollView (pollReply env computationId s) with
    | Continues =>
        waitLoop env fuel startTime computationId (polledOn env computationId s)
    | Completes payload =>
        (Returned {| w_data := payload; w_gasUsed := num 0 |}, requested env req s)
    | Fails err =>
        (Thrown (failedPoll env err),
         noted ERROR "Error polling computation status" (requested env req s))
    | Breaks =>
        (Thrown (mkError "Failed to retrieve computation status"),
         noted ERROR "Error polling computation status"
           (noted ERROR "Failed to get computation status" (requested env req s)))
    end.
Proof.
  intros H. cbn [waitLoop]. unfold bind at 1. unfold dateNow.
  destruct (Z.ltb_spec (clock s - startTime) maxWaitTime); [|lia].
  unfold bind.
  destruct (pollView (pollReply env computationId s)) as [| payload | err |] eqn:V.
  - now rewrite (pollOnce_continues s V).
  - now rewrite (pollOnce_completes s payload V).
  - now rewrite (pollOnce_fails s err V).
  - now rewrite (pollOnce_breaks s V).
Qed.

(** ** Several turns *)






(** The loop never runs out of fuel when it is given one unit per poll
    interval left before the ceiling, and one more. *)
Lemma waitLoop_total fuel : forall startTime s,
  maxWaitTime - (clock s - startTime) <= Z.of_nat fuel * pollInterval ->
  fst (waitLoop env (S fuel) startTime computationId s) <> Diverged.
Proof.
  induction fuel as [| fuel IH]; intros startTime s H.
  - rewrite waitLoop_expired by lia. discriminate.
  - destruct (Z_lt_ge_dec (clock s - startTime) maxWaitTime) as [Hlt | Hge].
    + rewrite waitLoop_turn by exact Hlt.
      destruct (pollView (pollReply env computationId s)); try discriminate.
      apply IH.
      assert (clock s + pollInterval <= clock (polledOn env computationId s)).
      { unfold polledOn, awoken, requested; cbn. lia. }
      lia.
    + rewrite waitLoop_expired by lia. discriminate.
Qed.

Lemma waitForComputationCompletion_total :
  total (waitForComputationCompletion env computationId).
Proof.
  intros s. unfold waitForComputationCompletion, bind, dateNow, waitFuel.
  apply waitLoop_total. vm_compute (Z.to_nat (maxWaitTime / pollInterval)).
  unfold maxWaitTime, pollInterval. lia.
Qed.

(** Whatever the loop returns carries [gasUsed: 0]. *)
Lemma waitLoop_gasUsed fuel : forall startTime s done s',
  waitLoop env fuel startTime computationId s = (Returned done, s') ->
  w_gasUsed done = num 0.
Proof.
  induction fuel as [| fuel IH]; intros startTime s done s' H; [discriminate|].
  destruct (Z_lt_ge_dec (clock s - startTime) maxWaitTime) as [Hlt | Hge].
  - rewrite waitLoop_turn in H by exact Hlt.
    destruct (pollView (pollReply env computationId s)); try discriminate.
    + eapply IH; eassumption.
    + injection H as <- _. reflexivity.
  - rewrite waitLoop_expired in H by lia. discriminate.
Qed.


End Polling.

(** ** Polling under the ceiling *)






(** ** Nothing but the wait loop can fail to return or throw *)


















(** ** The composite operation *)

(** [performEncryptedComputation] is its [try] block, with a thrown error
    turned into a failed result by the [catch] block. *)
Lemma performEncryptedComputation_steps env request s :
  performEncryptedComputation env request s
  = match computationSteps env (clock s) request s with
    | (Thrown e, s1) =>
        (Returned (failure (message e) (clock s1 - clock s)),
         noted ERROR "Encrypted computation failed" s1)
    | r => r
    end.
Proof.
  unfold performEncryptedComputation, bind at 1, dateNow at 1, tryCatch.
  destruct (computationSteps env (clock s) request s) as [[r | e |] s1]; reflexivity.
Qed.

(** Once the job is submitted, the [try] block is the wait followed by the
    construction of the successful result. *)
Lemma computationSteps_submitted env startTime request s computationId s3 :
  submitted env request s computationId s3 ->
  computationSteps env startTime request s
  = match waitForComputationCompletion env computationId s3 with
    | (Returned res, s4) =>
        (Returned {| r_success := true;
                     r_result := w_data res;
                     r_computationId := Some computationId;
                     r_error := None;
                     r_executionTime := clock s4 - startTime;
                     r_gasUsed := Some (js_or (w_gasUsed res) (num 0)) |},
         noted LOG ("Encrypted computation completed in "
                    ++ ToString env (num (clock s4 - startTime)) ++ "ms") s4)
    | (Thrown e, s4) => (Thrown e, s4)
    | (Diverged, s4) => (Diverged, s4)
    end.
Proof.
  unfold submitted, stepsToSubmission, computationSteps. intros H.
  apply bind_returned in H as (u & s0 & Hl & H).
  apply bind_returned in H as (found & s1 & Hm & H).
  destruct found as [mxe |]; [|discriminate].
  apply bind_returned in H as (enc & s2 & He & Hs).
  unfold bind at 1. rewrite Hl.
  unfold bind at 1. rewrite Hm.
  unfold bind at 1. rewrite He.
  unfold bind at 1. rewrite Hs.
  unfold bind at 1.
  destruct (waitForComputationCompletion env computationId s3) as [[res | e |] s4];
    reflexivity.
Qed.

Lemma computationSteps_gasUsed env startTime request s res s' :
  computationSteps env startTime request s = (Returned res, s') ->
  r_success res = true /\ r_gasUsed res = Some (num 0).
Proof.
  unfold computationSteps. intros H.
  apply bind_returned in H as (u & s0 & _ & H).
  apply bind_returned in H as (found & s1 & _ & H).
  destruct found as [mxe |]; [|discriminate].
  apply bind_returned in H as (enc & s2 & _ & H).
  apply bind_returned in H as (cid & s3 & _ & H).
  apply bind_returned in H as (done & s4 & Hw & H).
  apply bind_returned in H as (now & s5 & _ & H).
  apply bind_returned in H as (u' & s6 & _ & H).
  injection H as <- _.
  unfold waitForComputationCompletion in Hw.
  apply bind_returned in Hw as (st & s7 & _ & Hw).
  apply waitLoop_gasUsed in Hw. cbn. rewrite Hw. split; reflexivity.
Qed.




(** C8. The wait loop returns [gasUsed: 0] whatever the network answered,
    so every successful result of [performEncryptedComputation] has
    [gasUsed] equal to 0. *)
Theorem gasUsed_always_zero env :
  (forall computationId s done s',
     waitForComputationCompletion env computationId s = (Returned done, s') ->
     w_gasUsed done = num 0)
  /\ (forall request s res s',
        performEncryptedComputation env request s = (Returned res, s') ->
        r_success res = true ->
        r_gasUsed res = Some (num 0)).
Proof.
  split.
  - intros computationId s done s' H.
    unfold waitForComputationCompletion in H.
    apply bind_returned in H as (st & s1 & _ & H).
    eapply waitLoop_gasUsed; eassumption.
  - intros request s res s' H Hs.
    rewrite performEncryptedComputation_steps in H.
    destruct (computationSteps env (clock s) request s) as [[r | e |] s1] eqn:E;
      try discriminate.
    + injection H as <- _. eapply computationSteps_gasUsed; eassumption.
    + injection H as <- _. discriminate.
Qed.

Lemma gasUsed_always_zero_witness :
  exists res s',
    performEncryptedComputation
      (job [pending; billed (JArr [num 70; JBool true]) 21000] (down 0))
      someRequest idle
    = (Returned res, s')
    /\ r_success res = true
    /\ r_gasUsed res = Some (num 0).
Proof.
  pose (e := job [pending; billed (JArr [num 70; JBool true]) 21000] (down 0)).
  destruct (performEncryptedComputation e someRequest idle) as [[res | err |] s'] eqn:E;
    try (vm_compute in E; discriminate).
  exists res, s'.
  assert (Hs : r_success res = true).
  { vm_compute in E. injection E as <- _. reflexivity. }
  split; [exact E|]. split; [exact Hs|].
  destruct (gasUsed_always_zero e) as (_ & H).
  exact (H someRequest idle res s' E Hs).
Defined.



(** ** Domain wrappers *)

Lemma beyond_the_end_is_missing (items : list JsValue) i :
  (List.length items <= i)%nat -> missingOrFalsy items i = true.
Proof. intros H. unfold missingOrFalsy. now rewrite nth_overflow. Qed.

Lemma js_or_default (v d : JsValue) : truthy v = false -> js_or v d = d.
Proof. intros H. unfold js_or. now rewrite H. Qed.

(** C5. When the underlying computation succeeded with an array, the
    wrappers return, and every position that is missing (beyond the end of
    the array) or falsy takes its fallback: 50 for the risk score, false
    for the approval, 0 for the maximum amount, 0.5 for the confidence, and
    1.5 for the required collateral ratio. *)
Theorem wrappers_default_missing_positions env s res s1 items :
  r_success res = true ->
  r_result res = JArr items ->
  (forall encryptedParams,
     performEncryptedComputation env
       (riskRequest encryptedParams (toISOString env (clock s))) s
     = (Returned res, s1) ->
     exists out,
       performEncryptedRiskAssessment env encryptedParams s = (Returned out, s1)
       /\ (missingOrFalsy items 0 = true -> riskScore out = num 50)
       /\ (missingOrFalsy items 1 = true -> approved out = JBool false)
       /\ (missingOrFalsy items 2 = true -> maxAmount out = num 0)
       /\ (missingOrFalsy items 3 = true -> confidence out = JNum (1 # 2))
       /\ ((List.length items < 4)%nat -> confidence out = JNum (1 # 2))
       /\ (items = [] ->
           out = {| riskScore := num 50; approved := JBool false;
                    maxAmount := num 0; confidence := JNum (1 # 2) |}))
  /\ (forall collateralValue loanAmount,
        performEncryptedComputation env
          (collateralRequest collateralValue loanAmount (toISOString env (clock s))) s
        = (Returned res, s1) ->
        exists out,
          performEncryptedCollateralValidation env collateralValue loanAmount s
          = (Returned out, s1)
          /\ (missingOrFalsy items 2 = true -> requiredRatio out = JNum (3 # 2))
          /\ ((List.length items < 3)%nat -> requiredRatio out = JNum (3 # 2))).
Proof.
  intros Hs Hr. split.
  - intros encryptedParams H.
    unfold performEncryptedRiskAssessment, bind at 1, isoNow.
    unfold bind at 1. rewrite H, Hs. cbn [negb].
    unfold getIndex. rewrite Hr. cbn.
    eexists. split; [reflexivity|]. cbn.
    unfold missingOrFalsy.
    repeat split; intros Hm.
    + apply js_or_default. now destruct (truthy (nth 0 items JUndefined)).
    + apply js_or_default. now destruct (truthy (nth 1 items JUndefined)).
    + apply js_or_default. now destruct (truthy (nth 2 items JUndefined)).
    + apply js_or_default. now destruct (truthy (nth 3 items JUndefined)).
    + apply js_or_default. rewrite nth_overflow by lia. reflexivity.
    + subst items. reflexivity.
  - intros collateralValue loanAmount H.
    unfold performEncryptedCollateralValidation, bind at 1, isoNow.
    unfold bind at 1. rewrite H, Hs. cbn [negb].
    unfold getIndex. rewrite Hr. cbn.
    eexists. split; [reflexivity|]. cbn.
    unfold missingOrFalsy.
    split; intros Hm.
    + apply js_or_default. now destruct (truthy (nth 2 items JUndefined)).
    + apply js_or_default. rewrite nth_overflow by lia. reflexivity.
Qed.

Lemma wrappers_default_missing_positions_witness :
  (exists out s1,
     performEncryptedRiskAssessment
       (job [completedWith (JArr [num 0; JBool true])] (down 0)) (num 1) idle
     = (Returned out, s1)
     /\ riskScore out = num 50
     /\ maxAmount out = num 0
     /\ confidence out = JNum (1 # 2))
  /\ (exists out s1,
        performEncryptedCollateralValidation
          (job [completedWith (JArr [JBool true; num 2])] (down 0))
          (num 200) (num 100) idle
        = (Returned out, s1)
        /\ requiredRatio out = JNum (3 # 2)).
Proof.
  split.
  - pose (e := job [completedWith (JArr [num 0; JBool true])] (down 0)).
    pose (s1 := snd (performEncryptedComputation e
                       (riskRequest (num 1) (toISOString e (clock idle))) idle)).
    destruct (wrappers_default_missing_positions e idle
                (succeededWith (JArr [num 0; JBool true])) s1
                [num 0; JBool true] eq_refl eq_refl) as (H & _).
    destruct (H (num 1)) as (out & Ho & H0 & _ & H2 & H3 & _).
    { vm_compute. reflexivity. }
    exists out, s1. split; [exact Ho|].
    split; [apply H0; reflexivity|].
    split; [apply H2; reflexivity | apply H3; reflexivity].
  - pose (e := job [completedWith (JArr [JBool true; num 2])] (down 0)).
    pose (s1 := snd (performEncryptedComputation e
                       (collateralRequest (num 200) (num 100)
                          (toISOString e (clock idle))) idle)).
    destruct (wrappers_default_missing_positions e idle
                (succeededWith (JArr [JBool true; num 2])) s1
                [JBool true; num 2] eq_refl eq_refl) as (_ & H).
    destruct (H (num 200) (num 100)) as (out & Ho & H2 & _).
    { vm_compute. reflexivity. }
    exists out, s1. split; [exact Ho | apply H2; reflexivity].
Defined.

(** C10, as the code has it.  When the underlying computation reports
    success and its result payload is [undefined] (absent) or [null], each
    of the three wrappers throws the TypeError raised by reading position 0,
    not a domain error and not its defaults.  Any other payload is read
    without an error: the wrappers return, and a payload that is a number
    or a boolean, which has no positions, yields the defaults. *)
Theorem wrappers_raise_on_absent_payload env s res s1 :
  r_success res = true ->
  (forall encryptedParams,
     performEncryptedComputation env
       (riskRequest encryptedParams (toISOString env (clock s))) s
     = (Returned res, s1) ->
     (nullish (r_result res) = true ->
      performEncryptedRiskAssessment env encryptedParams s
      = (Thrown {| kind := TypeError;
                   message := "Cannot read properties of "
                              ++ ToString env (r_result res)
                              ++ " (reading '0')" |}, s1))
     /\ (nullish (r_result res) = false ->
         exists out,
           performEncryptedRiskAssessment env encryptedParams s = (Returned out, s1))
     /\ ((exists q, r_result res = JNum q) \/ (exists b, r_result res = JBool b) ->
         performEncryptedRiskAssessment env encryptedParams s
         = (Returned {| riskScore := num 50; approved := JBool false;
                        maxAmount := num 0; confidence := JNum (1 # 2) |}, s1)))
  /\ (forall collateralValue loanAmount,
        performEncryptedComputation env
          (collateralRequest collateralValue loanAmount (toISOString env (clock s))) s
        = (Returned res, s1) ->
        (nullish (r_result res) = true ->
         performEncryptedCollateralValidation env collateralValue loanAmount s
         = (Thrown {| kind := TypeError;
                      message := "Cannot read properties of "
                                 ++ ToString env (r_result res)
                                 ++ " (reading '0')" |}, s1))
        /\ (nullish (r_result res) = false ->
            exists out,
              performEncryptedCollateralValidation env collateralValue loanAmount s
              = (Returned out, s1))
        /\ ((exists q, r_result res = JNum q) \/ (exists b, r_result res = JBool b) ->
            performEncryptedCollateralValidation env collateralValue loanAmount s
            = (Returned {| valid := JBool false; ratio := num 0;
                           requiredRatio := JNum (3 # 2) |}, s1)))
  /\ (forall principal rate time,
        performEncryptedComputation env
          (interestRequest principal rate time (toISOString env (clock s))) s
        = (Returned res, s1) ->
        (nullish (r_result res) = true ->
         performEncryptedInterestCalculation env principal rate time s
         = (Thrown {| kind := TypeError;
                      message := "Cannot read properties of "
                                 ++ ToString env (r_result res)
                                 ++ " (reading '0')" |}, s1))
        /\ (nullish (r_result res) = false ->
            exists out,
              performEncryptedInterestCalculation env principal rate time s
              = (Returned out, s1))
        /\ ((exists q, r_result res = JNum q) \/ (exists b, r_result res = JBool b) ->
            performEncryptedInterestCalculation env principal rate time s
            = (Returned {| interest := num 0; totalAmount := num 0;
                           monthlyPayment := num 0 |}, s1))).
Proof.
  intros Hs. split; [|split].
  - intros encryptedParams H.
    assert (E : performEncryptedRiskAssessment env encryptedParams s
                = (x0 <- getIndex env (r_result res) 0 ;;
                   x1 <- getIndex env (r_result res) 1 ;;
                   x2 <- getIndex env (r_result res) 2 ;;
                   x3 <- getIndex env (r_result res) 3 ;;
                   ret {| riskScore := js_or x0 (num 50);
                          approved := js_or x1 (JBool false);
                          maxAmount := js_or x2 (num 0);
                          confidence := js_or x3 (JNum (1 # 2)) |}) s1).
    { unfold performEncryptedRiskAssessment, bind at 1, isoNow.
      unfold bind at 1. now rewrite H, Hs. }
    rewrite E. unfold getIndex.
    split; [|split].
    + intros Hn. rewrite Hn. reflexivity.
    + intros Hn. rewrite Hn. eexists. reflexivity.
    + intros [(q & Hq) | (b & Hb)].
      * rewrite Hq. reflexivity.
      * rewrite Hb. reflexivity.
  - intros collateralValue loanAmount H.
    assert (E : performEncryptedCollateralValidation env collateralValue loanAmount s
                = (x0 <- getIndex env (r_result res) 0 ;;
                   x1 <- getIndex env (r_result res) 1 ;;
                   x2 <- getIndex env (r_result res) 2 ;;
                   ret {| valid := js_or x0 (JBool false);
                          ratio := js_or x1 (num 0);
                          requiredRatio := js_or x2 (JNum (3 # 2)) |}) s1).
    { unfold performEncryptedCollateralValidation, bind at 1, isoNow.
      unfold bind at 1. now rewrite H, Hs. }
    rewrite E. unfold getIndex.
    split; [|split].
    + intros Hn. rewrite Hn. reflexivity.
    + intros Hn. rewrite Hn. eexists. reflexivity.
    + intros [(q & Hq) | (b & Hb)].
      * rewrite Hq. reflexivity.
      * rewrite Hb. reflexivity.
  - intros principal rate time H.
    assert (E : performEncryptedInterestCalculation env principal rate time s
                = (x0 <- getIndex env (r_result res) 0 ;;
                   x1 <- getIndex env (r_result res) 1 ;;
                   x2 <- getIndex env (r_result res) 2 ;;
                   ret {| interest := js_or x0 (num 0);
                          totalAmount := js_or x1 (num 0);
                          monthlyPayment := js_or x2 (num 0) |}) s1).
    { unfold performEncryptedInterestCalculation, bind at 1, isoNow.
      unfold bind at 1. now rewrite H, Hs. }
    rewrite E. unfold getIndex.
    split; [|split].
    + intros Hn. rewrite Hn. reflexivity.
    + intros Hn. rewrite Hn. eexists. reflexivity.
    + intros [(q & Hq) | (b & Hb)].
      * rewrite Hq. reflexivity.
      * rewrite Hb. reflexivity.
Qed.

Lemma wrappers_raise_on_absent_payload_witness :
  performEncryptedRiskAssessment (job [completedBare] (down 0)) (num 1) idle
  = (Thrown {| kind := TypeError;
               message := "Cannot read properties of undefined (reading '0')" |},
     snd (performEncryptedComputation (job [completedBare] (down 0))
            (riskRequest (num 1)
               (toISOString (job [completedBare] (down 0)) (clock idle))) idle))
  /\ fst (performEncryptedCollateralValidation
            (job [completedWith (JBool true)] (down 0)) (num 200) (num 100) idle)
     = Returned {| valid := JBool false; ratio := num 0;
                   requiredRatio := JNum (3 # 2) |}
  /\ fst (performEncryptedInterestCalculation
            (job [completedWith (JBool true)] (down 0))
            (num 1000) (num 5) (num 12) idle)
     = Returned {| interest := num 0; totalAmount := num 0;
                   monthlyPayment := num 0 |}.
Proof.
  split; [|split].
  - pose (e := job [completedBare] (down 0)).
    destruct (wrappers_raise_on_absent_payload e idle (succeededWith JUndefined)
                (snd (performEncryptedComputation e
                        (riskRequest (num 1) (toISOString e (clock idle))) idle))
                eq_refl) as (H & _).
    destruct (H (num 1)) as (Hthrow & _).
    { vm_compute. reflexivity. }
    apply Hthrow. reflexivity.
  - pose (e := job [completedWith (JBool true)] (down 0)).
    destruct (wrappers_raise_on_absent_payload e idle (succeededWith (JBool true))
                (snd (performEncryptedComputation e
                        (collateralRequest (num 200) (num 100)
                           (toISOString e (clock idle))) idle))
                eq_refl) as (_ & H & _).
    destruct (H (num 200) (num 100)) as (_ & _ & Hd).
    { vm_compute. reflexivity. }
    exact (f_equal fst (Hd (or_intror (ex_intro _ true eq_refl)))).
  - pose (e := job [completedWith (JBool true)] (down 0)).
    destruct (wrappers_raise_on_absent_payload e idle (succeededWith (JBool true))
                (snd (performEncryptedComputation e
                        (interestRequest (num 1000) (num 5) (num 12)
                           (toISOString e (clock idle))) idle))
                eq_refl) as (_ & _ & H).
    destruct (H (num 1000) (num 5) (num 12)) as (_ & _ & Hd).
    { vm_compute. reflexivity. }
    exact (f_equal fst (Hd (or_intror (ex_intro _ true eq_refl)))).
Defined.

(** C10 as stated fails on the code: a payload that is not an indexable
    sequence, here an object with named fields and a number, is read
    without any error, and the wrappers return their defaults. *)
Lemma non_sequence_payload_counterexample :
  (fst (performEncryptedComputation
          (job [completedWith (JObj [("score", num 70)])] (down 0))
          someRequest idle)
   = Returned (succeededWith (JObj [("score", num 70)]))
   /\ fst (performEncryptedRiskAssessment
             (job [completedWith (JObj [("score", num 70)])] (down 0)) (num 1) idle)
      = Returned {| riskScore := num 50; approved := JBool false;
                    maxAmount := num 0; confidence := JNum (1 # 2) |})
  /\ fst (performEncryptedCollateralValidation
            (job [completedWith (num 42)] (down 0)) (num 200) (num 100) idle)
     = Returned {| valid := JBool false; ratio := num 0;
                   requiredRatio := JNum (3 # 2) |}
  /\ fst (performEncryptedInterestCalculation
            (job [completedWith (num 42)] (down 0)) (num 1000) (num 5) (num 12) idle)
     = Returned {| interest := num 0; totalAmount := num 0;
                   monthlyPayment := num 0 |}.
Proof.
  repeat split; vm_compute; reflexivity.
Qed.

(** ** Further properties: node discovery and submission *)

Lemma gtZero_length env n : gtZero env (num (Z.of_nat (S n))) = true.
Proof.
  unfold gtZero, ToNumber, num, Qle_bool. cbn [Qnum Qden inject_Z].
  apply negb_true_iff, Z.leb_gt. lia.
Qed.

Lemma getAvailableMXE_rejected env s e :
  result (net env (List.length (sent s)) mxeRequest) = Rejected e ->
  getAvailableMXE env s
  = (Returned None,
     noted ERROR "Failed to get available MXE" (requested env mxeRequest s)).
Proof.
  intros H. unfold getAvailableMXE, httpGet, tryCatch, bind.
  rewrite (httpClient_rejected env _ _ e) by exact H. reflexivity.
Qed.

Lemma getAvailableMXE_first env s r first rest :
  result (net env (List.length (sent s)) mxeRequest) = Fulfilled r ->
  data r = JArr (first :: rest) ->
  getAvailableMXE env s
  = if nullish first
    then (Returned None,
          noted ERROR "Failed to get available MXE" (requested env mxeRequest s))
    else (Returned (Some {| mxe_id := propOf first "id";
                            mxe_publicKey := propOf first "publicKey";
                            mxe_capacity := propOf first "capacity" |}),
          requested env mxeRequest s).
Proof.
  intros H Hd. unfold getAvailableMXE, httpGet, tryCatch, bind.
  rewrite (httpClient_fulfilled env _ _ r) by exact H. rewrite Hd.
  cbn [truthy]. unfold getProp at 1. cbn [nullish propOf String.eqb Ascii.eqb Bool.eqb].
  cbn [List.length]. unfold ret at 1. rewrite gtZero_length.
  unfold getIndex, getProp. cbn [nullish itemOf nth].
  unfold ret at 1.
  destruct (nullish first); reflexivity.
Qed.

Lemma performEncryptedComputation_without_node env request s s1 :
  getAvailableMXE env
    (noted LOG ("Starting encrypted computation: " ++ functionName request) s)
  = (Returned None, s1) ->
  performEncryptedComputation env request s
  = (Returned (failure "No available MXE found" (clock s1 - clock s)),
     noted ERROR "Encrypted computation failed" s1).
Proof.
  intros H. rewrite performEncryptedComputation_steps.
  unfold computationSteps. unfold bind at 1. unfold logger at 1.
  unfold bind at 1. rewrite H. reflexivity.
Qed.

(** X1. [getAvailableMXE] never throws and sends exactly one request: a
    rejected listing, a falsy body and a list whose first entry is [null] or
    [undefined] all read as "no node" ([null]). *)
Theorem getAvailableMXE_swallows_errors env s :
  (exists found s',
     getAvailableMXE env s = (Returned found, s')
     /\ sent s' = mxeRequest :: sent s)
  /\ (forall e,
        result (net env (List.length (sent s)) mxeRequest) = Rejected e ->
        fst (getAvailableMXE env s) = Returned None)
  /\ (forall r,
        result (net env (List.length (sent s)) mxeRequest) = Fulfilled r ->
        truthy (data r) = false ->
        fst (getAvailableMXE env s) = Returned None)
  /\ (forall r first rest,
        result (net env (List.length (sent s)) mxeRequest) = Fulfilled r ->
        data r = JArr (first :: rest) ->
        nullish first = true ->
        fst (getAvailableMXE env s) = Returned None).
Proof.
  split; [|split; [|split]].
  - unfold getAvailableMXE, httpGet, tryCatch, bind, httpClient. fold mxeRequest.
    destruct (result (net env (List.length (sent s)) mxeRequest)) as [e | r];
      [eexists _, _; split; reflexivity|].
    destruct (truthy (data r)); [|eexists _, _; split; reflexivity].
    unfold getProp at 1.
    destruct (nullish (data r)); [eexists _, _; split; reflexivity|].
    unfold ret at 1.
    destruct (gtZero env (propOf (data r) "length"));
      [|eexists _, _; split; reflexivity].
    unfold getIndex.
    destruct (nullish (data r)); [eexists _, _; split; reflexivity|].
    unfold ret at 1. unfold getProp.
    destruct (nullish (itemOf (data r) 0)); eexists _, _; split; reflexivity.
  - intros e H. now rewrite (getAvailableMXE_rejected env s e H).
  - intros r H Hf. unfold getAvailableMXE, httpGet, tryCatch, bind.
    rewrite (httpClient_fulfilled env _ _ r) by exact H. rewrite Hf. reflexivity.
  - intros r first rest H Hd Hn.
    rewrite (getAvailableMXE_first env s r first rest H Hd), Hn. reflexivity.
Qed.

Lemma getAvailableMXE_swallows_errors_witness :
  fst (getAvailableMXE (runtime (script [down 30000])) idle) = Returned None
  /\ fst (getAvailableMXE (runtime (script [ok 5 JNull])) idle) = Returned None
  /\ fst (getAvailableMXE (runtime (script [ok 5 (JArr [JNull; JObj []])])) idle)
     = Returned None.
Proof.
  split; [|split].
  - destruct (getAvailableMXE_swallows_errors (runtime (script [down 30000])) idle)
      as (_ & H & _).
    apply (H {| kind := AxiosError; message := "Network Error" |}). reflexivity.
  - destruct (getAvailableMXE_swallows_errors (runtime (script [ok 5 JNull])) idle)
      as (_ & _ & H & _).
    apply (H {| status := 200; data := JNull |}); reflexivity.
  - destruct (getAvailableMXE_swallows_errors
                (runtime (script [ok 5 (JArr [JNull; JObj []])])) idle)
      as (_ & _ & _ & H).
    apply (H {| status := 200; data := JArr [JNull; JObj []] |} JNull [JObj []]);
      reflexivity.
Defined.

(** X2. A listing that cannot be reached is not told apart from an empty
    one: when the listing request is rejected, [performEncryptedComputation]
    returns [success: false] with "No available MXE found", the transport
    error is only logged, and nothing else is sent. *)
Theorem unreachable_listing_reads_as_no_node env request s e :
  result (net env (List.length (sent s)) mxeRequest) = Rejected e ->
  exists res s',
    performEncryptedComputation env request s = (Returned res, s')
    /\ r_success res = false
    /\ r_error res = Some "No available MXE found"
    /\ sent s' = mxeRequest :: sent s
    /\ ciphered s' = ciphered s.
Proof.
  intros H.
  rewrite (performEncryptedComputation_without_node env request s
             (noted ERROR "Failed to get available MXE"
                (requested env mxeRequest
                   (noted LOG ("Starting encrypted computation: "
                               ++ functionName request) s)))).
  - eexists _, _. split; [reflexivity|]. repeat split.
  - apply (getAvailableMXE_rejected env _ e). exact H.
Qed.

Lemma unreachable_listing_reads_as_no_node_witness :
  exists res s',
    performEncryptedComputation (runtime (script [down 30000])) someRequest idle
    = (Returned res, s')
    /\ r_success res = false
    /\ r_error res = Some "No available MXE found"
    /\ sent s' = mxeRequest :: sent idle
    /\ ciphered s' = ciphered idle.
Proof.
  apply (unreachable_listing_reads_as_no_node
           (runtime (script [down 30000])) someRequest idle
           {| kind := AxiosError; message := "Network Error" |}).
  reflexivity.
Defined.

Lemma submitComputation_cases env mxeId fn enc meta s :
  (exists cid,
     truthy cid = true
     /\ submitComputation env mxeId fn enc meta s
        = (Returned cid, requested env (submitRequest env mxeId fn enc meta s) s))
  \/ submitComputation env mxeId fn enc meta s
     = (Thrown (mkError "Computation submission failed"),
        noted ERROR "Failed to submit computation"
          (requested env (submitRequest env mxeId fn enc meta s) s)).
Proof.
  unfold submitComputation, httpPost, tryCatch, bind, isoNow, httpClient, getProp,
    ret, throw.
  fold (submitRequest env mxeId fn enc meta s).
  destruct (result (net env (List.length (sent s))
                      (submitRequest env mxeId fn enc meta s))) as [e | r];
    [right; reflexivity|].
  destruct (truthy (data r)) eqn:Ht; [|right; reflexivity].
  destruct (nullish (data r)); [right; reflexivity|].
  destruct (truthy (propOf (data r) "computationId")) eqn:Hc; [|right; reflexivity].
  left. exists (propOf (data r) "computationId"). split; [exact Hc | reflexivity].
Qed.

(** ** Further properties: the clock *)

Lemma forward_ret {A} (a : A) : forward (ret a).
Proof. intros s o s' H. injection H as _ <-. lia. Qed.

Lemma forward_throw {A} (e : JsError) : forward (@throw A e).
Proof. intros s o s' H. injection H as _ <-. lia. Qed.

Lemma forward_diverge {A} : forward (@diverge A).
Proof. intros s o s' H. injection H as _ <-. lia. Qed.

Lemma forward_bind {A B} (m : M A) (k : A -> M B) :
  forward m -> (forall a, forward (k a)) -> forward (bind m k).
Proof.
  intros Hm Hk s o s' H. unfold bind in H.
  destruct (m s) as [[a | e |] s1] eqn:E; specialize (Hm _ _ _ E).
  - specialize (Hk a _ _ _ H). lia.
  - injection H as _ <-. exact Hm.
  - injection H as _ <-. exact Hm.
Qed.

Lemma forward_tryCatch {A} (m : M A) (h : JsError -> M A) :
  forward m -> (forall e, forward (h e)) -> forward (tryCatch m h).
Proof.
  intros Hm Hh s o s' H. unfold tryCatch in H.
  destruct (m s) as [[a | e |] s1] eqn:E; specialize (Hm _ _ _ E).
  - injection H as _ <-. exact Hm.
  - specialize (Hh e _ _ _ H). lia.
  - injection H as _ <-. exact Hm.
Qed.

Lemma forward_logger lvl msg : forward (logger lvl msg).
Proof. intros s o s' H. injection H as _ <-. cbn. lia. Qed.

Lemma forward_dateNow : forward dateNow.
Proof. intros s o s' H. injection H as _ <-. lia. Qed.

Lemma forward_isoNow env : forward (isoNow env).
Proof. intros s o s' H. injection H as _ <-. lia. Qed.

Lemma forward_sleep env : forward (sleep env pollInterval).
Proof.
  intros s o s' H. injection H as _ <-. unfold awoken, pollInterval. cbn. lia.
Qed.

Lemma forward_httpClient env req : forward (httpClient env req).
Proof.
  intros s o s' H. unfold httpClient in H.
  destruct (result _); injection H as _ <-; unfold requested; cbn; lia.
Qed.

Lemma forward_cryptoSeal env ins key : forward (cryptoSeal env ins key).
Proof.
  intros s o s' H. unfold cryptoSeal in H.
  destruct (sealed _); injection H as _ <-; cbn; lia.
Qed.

Lemma forward_getProp env v k : forward (getProp env v k).
Proof. unfold getProp. destruct (nullish v); [apply forward_throw | apply forward_ret]. Qed.

Lemma forward_getIndex env v i : forward (getIndex env v i).
Proof. unfold getIndex. destruct (nullish v); [apply forward_throw | apply forward_ret]. Qed.

Lemma forward_template env v : forward (template env v).
Proof.
  unfold template. destruct (convertible v); [apply forward_ret | apply forward_throw].
Qed.

Ltac forwards :=
  repeat first
    [ apply forward_ret | apply forward_throw | apply forward_diverge
    | apply forward_template
    | apply forward_logger | apply forward_dateNow | apply forward_isoNow
    | apply forward_sleep | apply forward_httpClient | apply forward_cryptoSeal
    | apply forward_getProp | apply forward_getIndex
    | apply forward_bind | apply forward_tryCatch
    | match goal with
      | |- forall _, _ => intro
      | |- forward (if ?b then _ else _) => destruct b
      | |- forward (match ?x with _ => _ end) => destruct x
      end ].

Lemma forward_getComputationStatus env computationId :
  forward (getComputationStatus env computationId).
Proof. unfold getComputationStatus, httpGet. forwards. Qed.

Lemma forward_pollOnce env computationId : forward (pollOnce env computationId).
Proof.
  unfold pollOnce.
  apply forward_tryCatch; [|forwards].
  apply forward_bind; [apply forward_getComputationStatus|]. forwards.
Qed.

Lemma forward_waitLoop env computationId fuel : forall startTime,
  forward (waitLoop env fuel startTime computationId).
Proof.
  induction fuel as [| fuel IH]; intros startTime; [apply forward_diverge|].
  cbn [waitLoop].
  apply forward_bind; [apply forward_dateNow | intros now].
  destruct (now - startTime <? maxWaitTime); [|apply forward_throw].
  apply forward_bind; [apply forward_pollOnce | intros [done | u]];
    [apply forward_ret | apply IH].
Qed.

Lemma forward_waitForComputationCompletion env computationId :
  forward (waitForComputationCompletion env computationId).
Proof.
  unfold waitForComputationCompletion.
  apply forward_bind; [apply forward_dateNow | intros st; apply forward_waitLoop].
Qed.

Lemma forward_computationSteps env startTime request :
  forward (computationSteps env startTime request).
Proof.
  unfold computationSteps.
  apply forward_bind; [apply forward_logger | intros _].
  apply forward_bind;
    [unfold getAvailableMXE, httpGet; forwards | intros [mxe |]];
    [|apply forward_throw].
  apply forward_bind; [unfold encryptInputs; forwards | intros enc].
  apply forward_bind; [unfold submitComputation, httpPost; forwards | intros cid].
  apply forward_bind; [apply forward_waitForComputationCompletion | intros done].
  forwards.
Qed.

(** ** Further properties: what a result of the composite operation is *)

Lemma submitted_truthy env request s computationId s3 :
  submitted env request s computationId s3 -> truthy computationId = true.
Proof.
  unfold submitted, stepsToSubmission. intros H.
  apply bind_returned in H as (u & s0 & _ & H).
  apply bind_returned in H as (found & s1 & _ & H).
  destruct found as [mxe |]; [|discriminate].
  apply bind_returned in H as (enc & s2 & _ & H).
  destruct (submitComputation_cases env (mxe_id mxe) (functionName request) enc
              (metadata request) s2) as [(cid & Ht & E) | E];
    rewrite E in H; [|discriminate].
  now injection H as <- _.
Qed.

Lemma computationSteps_returned env startTime request s res s' :
  computationSteps env startTime request s = (Returned res, s') ->
  exists computationId s3 done s4,
    submitted env request s computationId s3
    /\ waitForComputationCompletion env computationId s3 = (Returned done, s4)
    /\ res = {| r_success := true;
                r_result := w_data done;
                r_computationId := Some computationId;
                r_error := None;
                r_executionTime := clock s4 - startTime;
                r_gasUsed := Some (js_or (w_gasUsed done) (num 0)) |}
    /\ clock s' = clock s4
    /\ sent s' = sent s4.
Proof.
  unfold computationSteps. intros H.
  apply bind_returned in H as (u & s0 & Hl & H).
  apply bind_returned in H as (found & s1 & Hm & H).
  destruct found as [mxe |]; [|discriminate].
  apply bind_returned in H as (enc & s2 & He & H).
  apply bind_returned in H as (cid & s3 & Hs & H).
  apply bind_returned in H as (done & s4 & Hw & H).
  apply bind_returned in H as (now & s5 & Hn & H).
  apply bind_returned in H as (u' & s6 & Hl' & H).
  injection Hn as <- <-. injection Hl' as _ <-. injection H as <- <-.
  exists cid, s3, done, s4. split; [|repeat split; assumption].
  unfold submitted, stepsToSubmission.
  unfold bind at 1. rewrite Hl. unfold bind at 1. rewrite Hm.
  unfold bind at 1. rewrite He. exact Hs.
Qed.

(** X3. Whatever [performEncryptedComputation] returns, its
    [executionTime] is the time that passed on the clock between the call
    and the return, and is never negative. *)
Theorem executionTime_is_elapsed_time env request s res s' :
  performEncryptedComputation env request s = (Returned res, s') ->
  r_executionTime res = clock s' - clock s /\ 0 <= r_executionTime res.
Proof.
  intros H. rewrite performEncryptedComputation_steps in H.
  destruct (computationSteps env (clock s) request s) as [[r | e |] s1] eqn:E;
    try discriminate.
  - injection H as <- <-.
    pose proof (forward_computationSteps env _ _ _ _ _ E) as Hf.
    destruct (computationSteps_returned env _ _ _ _ _ E)
      as (cid & s3 & done & s4 & _ & _ & -> & Hc & _).
    cbn [r_executionTime]. lia.
  - injection H as <- <-.
    pose proof (forward_computationSteps env _ _ _ _ _ E) as Hf.
    cbn. lia.
Qed.

Lemma executionTime_is_elapsed_time_witness :
  r_executionTime
    (failure "Computation failed: bad input" 5047)
  = clock (snd (performEncryptedComputation
                  (runtime (script [ok 12 oneMxe; ok 30 accepted;
                                    ok 3 pending; ok 2 (failedWith "bad input")]))
                  someRequest idle))
    - clock idle
  /\ 0 <= r_executionTime (failure "Computation failed: bad input" 5047).
Proof.
  apply (executionTime_is_elapsed_time
           (runtime (script [ok 12 oneMxe; ok 30 accepted;
                             ok 3 pending; ok 2 (failedWith "bad input")]))
           someRequest idle).
  vm_compute. reflexivity.
Defined.

(** X4. A result of [performEncryptedComputation] is of one of two shapes.
    A success carries no [error] and the computation identifier the network
    gave, which is truthy.  A failure carries an [error] message and no
    [result], [computationId] or [gasUsed]: the identifier of a job that was
    submitted and then failed or timed out is not reported. *)
Theorem result_shape env request s res s' :
  performEncryptedComputation env request s = (Returned res, s') ->
  (r_success res = true
   /\ r_error res = None
   /\ exists computationId,
        r_computationId res = Some computationId /\ truthy computationId = true)
  \/ (r_success res = false
      /\ (exists msg, r_error res = Some msg)
      /\ r_result res = JUndefined
      /\ r_computationId res = None
      /\ r_gasUsed res = None).
Proof.
  intros H. rewrite performEncryptedComputation_steps in H.
  destruct (computationSteps env (clock s) request s) as [[r | e |] s1] eqn:E;
    try discriminate.
  - injection H as <- <-. left.
    destruct (computationSteps_returned env _ _ _ _ _ E)
      as (cid & s3 & done & s4 & Hs & _ & -> & _).
    cbn. repeat split. exists cid. split; [reflexivity|].
    eapply submitted_truthy; eassumption.
  - injection H as <- <-. right. cbn. repeat split. eexists; reflexivity.
Qed.

Lemma result_shape_witness :
  (r_success (failure "Computation timeout" 300000) = true
   /\ r_error (failure "Computation timeout" 300000) = None
   /\ exists computationId,
        r_computationId (failure "Computation timeout" 300000) = Some computationId
        /\ truthy computationId = true)
  \/ (r_success (failure "Computation timeout" 300000) = false
      /\ (exists msg, r_error (failure "Computation timeout" 300000) = Some msg)
      /\ r_result (failure "Computation timeout" 300000) = JUndefined
      /\ r_computationId (failure "Computation timeout" 300000) = None
      /\ r_gasUsed (failure "Computation timeout" 300000) = None).
Proof.
  apply (result_shape (job [] (ok 0 pending)) someRequest idle
           (failure "Computation timeout" 300000)
           (snd (performEncryptedComputation (job [] (ok 0 pending)) someRequest idle))).
  vm_compute. reflexivity.
Defined.

(** ** Further properties: the wait loop's requests and errors *)

Lemma repeat_snoc {A} (a : A) n (l : list A) :
  (repeat a n ++ a :: l = a :: repeat a n ++ l)%list.
Proof. induction n as [| n IH]; [reflexivity|]. cbn. now rewrite IH. Qed.

Lemma waitLoop_requests env computationId fuel : forall startTime s o s',
  waitLoop env fuel startTime computationId s = (o, s') ->
  exists n,
    sent s' = (repeat (statusRequest env computationId) n ++ sent s)%list
    /\ ciphered s' = ciphered s
    /\ (n = 0%nat
        \/ pollInterval * (Z.of_nat n - 1) < maxWaitTime - (clock s - startTime)).
Proof.
  induction fuel as [| fuel IH]; intros startTime s o s' H.
  - injection H as _ <-. exists 0%nat. repeat split. now left.
  - destruct (Z_lt_ge_dec (clock s - startTime) maxWaitTime) as [Hlt | Hge].
    + rewrite waitLoop_turn in H by exact Hlt.
      destruct (pollView (pollReply env computationId s)).
      * destruct (IH _ _ _ _ H) as (n & Hs & Hc & Hn).
        exists (S n). rewrite Hs. cbn [sent polledOn awoken requested repeat app].
        rewrite repeat_snoc. split; [reflexivity|]. split; [rewrite Hc; reflexivity|].
        right.
        assert (clock s + pollInterval <= clock (polledOn env computationId s)).
        { unfold polledOn, awoken, requested; cbn. lia. }
        unfold pollInterval in *. destruct Hn as [-> | Hn]; lia.
      * injection H as _ <-. exists 1%nat. repeat split. right.
        unfold pollInterval. lia.
      * injection H as _ <-. exists 1%nat. repeat split. right.
        unfold pollInterval. lia.
      * injection H as _ <-. exists 1%nat. repeat split. right.
        unfold pollInterval. lia.
    + rewrite waitLoop_expired in H by lia. injection H as _ <-.
      exists 0%nat. repeat split. now left.
Qed.


(** X5. Whatever the network answers, one wait sends at most 60 requests,
    every one of them the status lookup of the computation it waits for,
    and does not touch the crypto module. *)
Theorem wait_sends_at_most_sixty_polls env computationId s o s' :
  waitForComputationCompletion env computationId s = (o, s') ->
  exists n,
    (n <= 60)%nat
    /\ sent s' = (repeat (statusRequest env computationId) n ++ sent s)%list
    /\ ciphered s' = ciphered s.
Proof.
  unfold waitForComputationCompletion, bind, dateNow. intros H.
  destruct (waitLoop_requests env computationId _ _ _ _ _ H) as (n & Hs & Hc & Hn).
  exists n. repeat split; [|exact Hs | exact Hc].
  destruct Hn as [-> | Hn]; [lia|].
  unfold pollInterval, maxWaitTime in Hn. lia.
Qed.

Lemma wait_sends_at_most_sixty_polls_witness :
  exists n,
    (n <= 60)%nat
    /\ sent (snd (waitForComputationCompletion stuckJob (JStr "c-1") idle))
       = (repeat (statusRequest stuckJob (JStr "c-1")) n ++ sent idle)%list
    /\ ciphered (snd (waitForComputationCompletion stuckJob (JStr "c-1") idle))
       = ciphered idle.
Proof.
  apply (wait_sends_at_most_sixty_polls stuckJob (JStr "c-1") idle
           (fst (waitForComputationCompletion stuckJob (JStr "c-1") idle))).
  vm_compute. reflexivity.
Defined.



(** The same wait on a network that never gives a terminal status *)
Example wait_times_out_late :
  exists s',
    waitForComputationCompletion stuckSlowJob (JStr "c-1") idle
    = (Thrown (mkError "Computation timeout"), s')
    /\ maxWaitTime <= clock s' - clock idle.
Proof. eexists. split; [vm_compute; reflexivity|]. vm_compute. discriminate. Qed.

(** ** Further properties: from the node to the submitted job *)

Lemma encryptInputs_cases env ins key s :
  encryptInputs env ins key s
  = match sealed (cipher env (ciphered s) ins key) with
    | inr e => (Returned e, ciphering env ins key s)
    | inl _ =>
        (Thrown (mkError "Input encryption failed"),
         noted ERROR "Failed to encrypt inputs" (ciphering env ins key s))
    end.
Proof.
  unfold encryptInputs, tryCatch, cryptoSeal.
  destruct (sealed (cipher env (ciphered s) ins key)); reflexivity.
Qed.

Lemma computationSteps_not_submitted env startTime request s e s1 :
  stepsToSubmission env request s = (Thrown e, s1) ->
  computationSteps env startTime request s = (Thrown e, s1).
Proof.
  unfold stepsToSubmission, computationSteps, bind, logger.
  destruct (getAvailableMXE env _) as [[[mxe |] | e1 |] s2];
    try (intros H; first [discriminate | injection H as <- <-; reflexivity]).
  destruct (encryptInputs env _ _ s2) as [[enc | e2 |] s3];
    try (intros H; first [discriminate | injection H as <- <-; reflexivity]).
  destruct (submitComputation env _ _ _ _ s3) as [[cid | e3 |] s4];
    intros H; first [discriminate | injection H as <- <-; reflexivity].
Qed.

Lemma stepsToSubmission_first env request s r first rest :
  result (net env (List.length (sent s)) mxeRequest) = Fulfilled r ->
  data r = JArr (first :: rest) ->
  nullish first = false ->
  stepsToSubmission env request s
  = match sealed (cipher env (ciphered s) (inputs request) (propOf first "publicKey")) with
    | inr enc =>
        submitComputation env (propOf first "id") (functionName request) enc
          (metadata request)
          (ciphering env (inputs request) (propOf first "publicKey")
             (requested env mxeRequest
                (noted LOG ("Starting encrypted computation: "
                            ++ functionName request) s)))
    | inl _ =>
        (Thrown (mkError "Input encryption failed"),
         noted ERROR "Failed to encrypt inputs"
           (ciphering env (inputs request) (propOf first "publicKey")
              (requested env mxeRequest
                 (noted LOG ("Starting encrypted computation: "
                             ++ functionName request) s))))
    end.
Proof.
  intros H Hd Hn. unfold stepsToSubmission.
  unfold bind at 1. unfold logger at 1. unfold bind at 1.
  rewrite (getAvailableMXE_first env
             (noted LOG ("Starting encrypted computation: " ++ functionName request) s)
             r first rest H Hd), Hn.
  unfold bind at 1. rewrite encryptInputs_cases.
  cbn [mxe_publicKey mxe_id ciphered requested noted].
  destruct (sealed (cipher env (ciphered s) (inputs request) (propOf first "publicKey")));
    reflexivity.
Qed.

(** X7. When the crypto module throws while the inputs are encrypted, the
    composite operation returns [success: false] with "Input encryption
    failed" and has sent nothing but the node listing: no job is
    submitted. *)
Theorem encryption_failure_stops_before_submission env request s r first rest err :
  result (net env (List.length (sent s)) mxeRequest) = Fulfilled r ->
  data r = JArr (first :: rest) ->
  nullish first = false ->
  sealed (cipher env (ciphered s) (inputs request) (propOf first "publicKey"))
  = inl err ->
  exists res s',
    performEncryptedComputation env request s = (Returned res, s')
    /\ r_success res = false
    /\ r_error res = Some "Input encryption failed"
    /\ sent s' = mxeRequest :: sent s.
Proof.
  intros H Hd Hn Hc.
  pose proof (stepsToSubmission_first env request s r first rest H Hd Hn) as E.
  rewrite Hc in E.
  rewrite performEncryptedComputation_steps.
  rewrite (computationSteps_not_submitted env (clock s) request s _ _ E).
  eexists _, _. split; [reflexivity|]. repeat split.
Qed.

Lemma encryption_failure_stops_before_submission_witness :
  exists res s',
    performEncryptedComputation brokenCrypto someRequest idle = (Returned res, s')
    /\ r_success res = false
    /\ r_error res = Some "Input encryption failed"
    /\ sent s' = mxeRequest :: sent idle.
Proof.
  apply (encryption_failure_stops_before_submission brokenCrypto someRequest idle
           {| status := 200; data := oneMxe |}
           (JObj [("id", JStr "mxe-1"); ("publicKey", JStr "pk"); ("capacity", num 4)])
           []
           {| kind := TypeError; message := "crypto.createCipher is not a function" |});
    reflexivity.
Defined.

(** X8. The job goes to the first node of the listing, whatever its
    capacity and whatever follows it in the list: the inputs are encrypted
    under that node's public key, the submission names that node's id and
    carries the ciphertext, and it is the second request sent; every later
    request of the operation is a status lookup, at most 60 of them. *)
Theorem submission_goes_to_first_node env request s r first rest enc :
  result (net env (List.length (sent s)) mxeRequest) = Fulfilled r ->
  data r = JArr (first :: rest) ->
  nullish first = false ->
  sealed (cipher env (ciphered s) (inputs request) (propOf first "publicKey"))
  = inr enc ->
  exists res s' computationId n,
    performEncryptedComputation env request s = (Returned res, s')
    /\ (n <= 60)%nat
    /\ sent s'
       = (repeat (statusRequest env computationId) n
          ++ submitRequest env (propOf first "id") (functionName request) enc
               (metadata request)
               (ciphering env (inputs request) (propOf first "publicKey")
                  (requested env mxeRequest s))
          :: mxeRequest :: sent s)%list.
Proof.
  intros H Hd Hn Hc.
  pose proof (stepsToSubmission_first env request s r first rest H Hd Hn) as E.
  rewrite Hc in E.
  set (s2 := ciphering env (inputs request) (propOf first "publicKey")
               (requested env mxeRequest
                  (noted LOG ("Starting encrypted computation: "
                              ++ functionName request) s))) in E.
  rewrite performEncryptedComputation_steps.
  destruct (submitComputation_cases env (propOf first "id") (functionName request)
              enc (metadata request) s2) as [(cid & _ & Es) | Es];
    rewrite Es in E.
  - rewrite (computationSteps_submitted env (clock s) request s cid _ E).
    pose proof (waitForComputationCompletion_total env cid
                  (requested env
                     (submitRequest env (propOf first "id") (functionName request) enc
                        (metadata request) s2) s2)) as Htot.
    destruct (waitForComputationCompletion env cid
                (requested env
                   (submitRequest env (propOf first "id") (functionName request) enc
                      (metadata request) s2) s2)) as [[done | e |] s4] eqn:W;
      [| | now cbn in Htot];
      unfold waitForComputationCompletion, bind, dateNow in W;
      destruct (waitLoop_requests env cid _ _ _ _ _ W) as (n & Hs & _ & Hb);
      (assert (Hle : (n <= 60)%nat)
        by (destruct Hb as [-> | Hb]; [lia | unfold pollInterval, maxWaitTime in Hb; lia]));
      eexists _, _, cid, n; (split; [reflexivity|]); (split; [exact Hle|]);
      cbn [sent noted]; rewrite Hs; reflexivity.
  - rewrite (computationSteps_not_submitted env (clock s) request s _ _ E).
    eexists _, _, JUndefined, 0%nat. split; [reflexivity|]. split; [lia|]. reflexivity.
Qed.

Lemma submission_goes_to_first_node_witness :
  exists res s' computationId n,
    performEncryptedComputation twoNodes someRequest idle = (Returned res, s')
    /\ (n <= 60)%nat
    /\ sent s'
       = (repeat (statusRequest twoNodes computationId) n
          ++ submitRequest twoNodes (JStr "mxe-1") (functionName someRequest)
               {| ciphertext := "00"; nonce := "00"; publicKey := "pem" |}
               (metadata someRequest)
               (ciphering twoNodes (inputs someRequest) (JStr "pk")
                  (requested twoNodes mxeRequest idle))
          :: mxeRequest :: sent idle)%list.
Proof.
  apply (submission_goes_to_first_node twoNodes someRequest idle
           {| status := 200;
              data := JArr [JObj [("id", JStr "mxe-1"); ("publicKey", JStr "pk");
                                  ("capacity", num 0)];
                            JObj [("id", JStr "mxe-2"); ("publicKey", JStr "pk2");
                                  ("capacity", num 9)]] |}
           (JObj [("id", JStr "mxe-1"); ("publicKey", JStr "pk"); ("capacity", num 0)])
           [JObj [("id", JStr "mxe-2"); ("publicKey", JStr "pk2"); ("capacity", num 9)]]
           {| ciphertext := "00"; nonce := "00"; publicKey := "pem" |});
    reflexivity.
Defined.



(** ** Further properties: the domain wrappers *)

Lemma js_or_truthy (v d : JsValue) : truthy d = true -> truthy (js_or v d) = true.
Proof. intros H. unfold js_or. destruct (truthy v) eqn:E; assumption. Qed.

Lemma js_or_falls_back (v d : JsValue) : js_or v d = d \/ truthy (js_or v d) = true.
Proof. unfold js_or. destruct (truthy v) eqn:E; [right; exact E | left; reflexivity]. Qed.

Lemma failed_result_has_message env request s res s' :
  performEncryptedComputation env request s = (Returned res, s') ->
  r_success res = false ->
  exists msg, r_error res = Some msg.
Proof.
  intros H Hs. rewrite performEncryptedComputation_steps in H.
  destruct (computationSteps env (clock s) request s) as [[r | e |] s1] eqn:E;
    try discriminate.
  - injection H as <- _.
    destruct (computationSteps_gasUsed env _ _ _ _ _ E) as (Ht & _). congruence.
  - injection H as <- _. eexists; reflexivity.
Qed.

(** X10. When the composite operation reports a failure, each wrapper
    throws its own error, whose message is its prefix followed by the
    message of the failure; such a failure always has a message, so the
    text never ends in "undefined". *)
Theorem wrappers_raise_domain_errors env s res s1 :
  r_success res = false ->
  (forall encryptedParams,
     performEncryptedComputation env
       (riskRequest encryptedParams (toISOString env (clock s))) s
     = (Returned res, s1) ->
     exists msg,
       r_error res = Some msg
       /\ performEncryptedRiskAssessment env encryptedParams s
          = (Thrown (mkError ("Risk assessment failed: " ++ msg)), s1))
  /\ (forall collateralValue loanAmount,
        performEncryptedComputation env
          (collateralRequest collateralValue loanAmount (toISOString env (clock s))) s
        = (Returned res, s1) ->
        exists msg,
          r_error res = Some msg
          /\ performEncryptedCollateralValidation env collateralValue loanAmount s
             = (Thrown (mkError ("Collateral validation failed: " ++ msg)), s1))
  /\ (forall principal rate time,
        performEncryptedComputation env
          (interestRequest principal rate time (toISOString env (clock s))) s
        = (Returned res, s1) ->
        exists msg,
          r_error res = Some msg
          /\ performEncryptedInterestCalculation env principal rate time s
             = (Thrown (mkError ("Interest calculation failed: " ++ msg)), s1)).
Proof.
  intros Hs. split; [|split].
  - intros encryptedParams H.
    destruct (failed_result_has_message env _ _ _ _ H Hs) as (msg & Hm).
    exists msg. split; [exact Hm|].
    unfold performEncryptedRiskAssessment, bind at 1, isoNow.
    unfold bind at 1. rewrite H, Hs, Hm. reflexivity.
  - intros collateralValue loanAmount H.
    destruct (failed_result_has_message env _ _ _ _ H Hs) as (msg & Hm).
    exists msg. split; [exact Hm|].
    unfold performEncryptedCollateralValidation, bind at 1, isoNow.
    unfold bind at 1. rewrite H, Hs, Hm. reflexivity.
  - intros principal rate time H.
    destruct (failed_result_has_message env _ _ _ _ H Hs) as (msg & Hm).
    exists msg. split; [exact Hm|].
    unfold performEncryptedInterestCalculation, bind at 1, isoNow.
    unfold bind at 1. rewrite H, Hs, Hm. reflexivity.
Qed.

Lemma wrappers_raise_domain_errors_witness :
  exists msg,
    r_error (failure "No available MXE found" 7) = Some msg
    /\ performEncryptedCollateralValidation (runtime (script [ok 7 (JArr [])]))
         (num 200) (num 100) idle
       = (Thrown (mkError ("Collateral validation failed: " ++ msg)),
          snd (performEncryptedComputation (runtime (script [ok 7 (JArr [])]))
                 (collateralRequest (num 200) (num 100)
                    (toISOString (runtime (script [ok 7 (JArr [])])) (clock idle)))
                 idle)).
Proof.
  destruct (wrappers_raise_domain_errors (runtime (script [ok 7 (JArr [])])) idle
              (failure "No available MXE found" 7)
              (snd (performEncryptedComputation (runtime (script [ok 7 (JArr [])]))
                      (collateralRequest (num 200) (num 100)
                         (toISOString (runtime (script [ok 7 (JArr [])])) (clock idle)))
                      idle))
              eq_refl) as (_ & H & _).
  apply (H (num 200) (num 100)). vm_compute. reflexivity.
Defined.

(** X11. Whatever the network computed, a risk assessment that is returned
    never has a falsy [riskScore] or [confidence] (a reported score of 0 comes
    out as 50), its [approved] is [false] or truthy and its [maxAmount] is 0
    or truthy; a returned collateral validation never has a falsy
    [requiredRatio]. *)
Theorem wrapper_fields_never_falsy env s :
  (forall encryptedParams out s',
     performEncryptedRiskAssessment env encryptedParams s = (Returned out, s') ->
     truthy (riskScore out) = true
     /\ truthy (confidence out) = true
     /\ (approved out = JBool false \/ truthy (approved out) = true)
     /\ (maxAmount out = num 0 \/ truthy (maxAmount out) = true))
  /\ (forall collateralValue loanAmount out s',
        performEncryptedCollateralValidation env collateralValue loanAmount s
        = (Returned out, s') ->
        truthy (requiredRatio out) = true
        /\ (valid out = JBool false \/ truthy (valid out) = true)
        /\ (ratio out = num 0 \/ truthy (ratio out) = true)).
Proof.
  split.
  - intros encryptedParams out s' H. unfold performEncryptedRiskAssessment in H.
    apply bind_returned in H as (ts & s0 & _ & H).
    apply bind_returned in H as (res & s1 & _ & H).
    destruct (negb (r_success res)); [discriminate|].
    apply bind_returned in H as (x0 & s2 & _ & H).
    apply bind_returned in H as (x1 & s3 & _ & H).
    apply bind_returned in H as (x2 & s4 & _ & H).
    apply bind_returned in H as (x3 & s5 & _ & H).
    injection H as <- _. cbn [riskScore confidence approved maxAmount].
    repeat split; try (apply js_or_truthy; reflexivity); apply js_or_falls_back.
  - intros collateralValue loanAmount out s' H.
    unfold performEncryptedCollateralValidation in H.
    apply bind_returned in H as (ts & s0 & _ & H).
    apply bind_returned in H as (res & s1 & _ & H).
    destruct (negb (r_success res)); [discriminate|].
    apply bind_returned in H as (x0 & s2 & _ & H).
    apply bind_returned in H as (x1 & s3 & _ & H).
    apply bind_returned in H as (x2 & s4 & _ & H).
    injection H as <- _. cbn [requiredRatio valid ratio].
    repeat split; try (apply js_or_truthy; reflexivity); apply js_or_falls_back.
Qed.

Lemma wrapper_fields_never_falsy_witness :
  truthy (riskScore {| riskScore := num 50; approved := JBool false;
                       maxAmount := num 0; confidence := JNum (1 # 2) |}) = true
  /\ truthy (confidence {| riskScore := num 50; approved := JBool false;
                           maxAmount := num 0; confidence := JNum (1 # 2) |}) = true
  /\ (approved {| riskScore := num 50; approved := JBool false;
                  maxAmount := num 0; confidence := JNum (1 # 2) |} = JBool false
      \/ truthy (approved {| riskScore := num 50; approved := JBool false;
                             maxAmount := num 0; confidence := JNum (1 # 2) |}) = true)
  /\ (maxAmount {| riskScore := num 50; approved := JBool false;
                   maxAmount := num 0; confidence := JNum (1 # 2) |} = num 0
      \/ truthy (maxAmount {| riskScore := num 50; approved := JBool false;
                              maxAmount := num 0; confidence := JNum (1 # 2) |}) = true).
Proof.
  destruct (wrapper_fields_never_falsy
              (job [completedWith (JArr [num 0; JNull; JStr ""; num 0])] (down 0)) idle)
    as (H & _).
  apply (H (num 1) _
           (snd (performEncryptedRiskAssessment
                   (job [completedWith (JArr [num 0; JNull; JStr ""; num 0])] (down 0))
                   (num 1) idle))).
  vm_compute. reflexivity.
Defined.

(** X12. When the underlying computation succeeded with an array, the
    interest wrapper returns, each of [interest], [totalAmount] and
    [monthlyPayment] being the entry at positions 0, 1 and 2 when that entry
    is truthy, and 0 when it is missing or falsy. *)
Theorem interest_positions env s res s1 items principal rate time :
  r_success res = true ->
  r_result res = JArr items ->
  performEncryptedComputation env
    (interestRequest principal rate time (toISOString env (clock s))) s
  = (Returned res, s1) ->
  exists out,
    performEncryptedInterestCalculation env principal rate time s = (Returned out, s1)
    /\ (missingOrFalsy items 0 = true -> interest out = num 0)
    /\ (missingOrFalsy items 1 = true -> totalAmount out = num 0)
    /\ (missingOrFalsy items 2 = true -> monthlyPayment out = num 0)
    /\ (missingOrFalsy items 0 = false -> interest out = nth 0 items JUndefined)
    /\ (missingOrFalsy items 1 = false -> totalAmount out = nth 1 items JUndefined)
    /\ (missingOrFalsy items 2 = false -> monthlyPayment out = nth 2 items JUndefined).
Proof.
  intros Hs Hr H.
  unfold performEncryptedInterestCalculation, bind at 1, isoNow.
  unfold bind at 1. rewrite H, Hs. cbn [negb].
  unfold getIndex. rewrite Hr. cbn.
  eexists. split; [reflexivity|]. cbn.
  unfold missingOrFalsy, js_or.
  repeat split; intros Hm.
  - now destruct (truthy (nth 0 items JUndefined)).
  - now destruct (truthy (nth 1 items JUndefined)).
  - now destruct (truthy (nth 2 items JUndefined)).
  - now destruct (truthy (nth 0 items JUndefined)).
  - now destruct (truthy (nth 1 items JUndefined)).
  - now destruct (truthy (nth 2 items JUndefined)).
Qed.

Lemma interest_positions_witness :
  exists out,
    performEncryptedInterestCalculation
      (job [completedWith (JArr [num 50; num 0])] (down 0))
      (num 1000) (num 5) (num 12) idle
    = (Returned out,
       snd (performEncryptedComputation
              (job [completedWith (JArr [num 50; num 0])] (down 0))
              (interestRequest (num 1000) (num 5) (num 12)
                 (toISOString (job [completedWith (JArr [num 50; num 0])] (down 0))
                    (clock idle))) idle))
    /\ interest out = num 50
    /\ totalAmount out = num 0
    /\ monthlyPayment out = num 0.
Proof.
  pose (e := job [completedWith (JArr [num 50; num 0])] (down 0)).
  destruct (interest_positions e idle (succeededWith (JArr [num 50; num 0]))
              (snd (performEncryptedComputation e
                      (interestRequest (num 1000) (num 5) (num 12)
                         (toISOString e (clock idle))) idle))
              [num 50; num 0] (num 1000) (num 5) (num 12) eq_refl eq_refl)
    as (out & Ho & _ & H1 & H2 & H0 & _).
  { vm_compute. reflexivity. }
  exists out. split; [exact Ho|].
  split; [apply H0; reflexivity|]. split; [apply H1; reflexivity | apply H2; reflexivity].
Defined.

(** ** Further properties: the accessors and the gateway *)


(** X14. Every field of the status [getNetworkStatus] returns is defined:
    [networkHealth] is truthy ("error" after a failure, "unknown" when the
    body has none), [connected] is [false] or truthy, and each count and the
    latency is 0 or truthy. *)
Theorem getNetworkStatus_fields_defined env s :
  exists v s',
    getNetworkStatus env s = (Returned v, s')
    /\ truthy (networkHealth v) = true
    /\ (connected v = JBool false \/ truthy (connected v) = true)
    /\ (activeNodes v = num 0 \/ truthy (activeNodes v) = true)
    /\ (averageLatency v = num 0 \/ truthy (averageLatency v) = true)
    /\ (mxeCount v = num 0 \/ truthy (mxeCount v) = true)
    /\ (totalComputations v = num 0 \/ truthy (totalComputations v) = true)
    /\ sent s' = networkRequest :: sent s.
Proof.
  unfold getNetworkStatus, httpGet, tryCatch, bind, httpClient, getProp.
  fold networkRequest.
  destruct (result (net env (List.length (sent s)) networkRequest)) as [e | r].
  - eexists _, _. split; [reflexivity|]. cbn. repeat split; now left.
  - destruct (nullish (data r)).
    + eexists _, _. split; [reflexivity|]. cbn. repeat split; now left.
    + eexists _, _. split; [reflexivity|].
      cbn [networkHealth connected activeNodes averageLatency mxeCount
           totalComputations sent requested].
      repeat split; try apply js_or_falls_back. apply js_or_truthy. reflexivity.
Qed.



(** X16. [estimateComputationCost] never throws and sends one request,
    whose body carries the function name, the number of inputs and the
    metadata, not the inputs.  No field of the estimate is ever falsy: an
    estimate of 0 from the network comes out as the fallback, and after a
    rejected request or an unreadable body the estimate is 100000 gas, a cost
    of 0.001 and 1000 ms. *)
Theorem estimateComputationCost_outcomes env request s :
  (exists v s',
     estimateComputationCost env request s = (Returned v, s')
     /\ truthy (estimatedGas v) = true
     /\ truthy (estimatedCost v) = true
     /\ truthy (estimatedTime v) = true
     /\ sent s' = estimateRequest request :: sent s)
  /\ (forall e,
        result (net env (List.length (sent s)) (estimateRequest request)) = Rejected e ->
        fst (estimateComputationCost env request s)
        = Returned {| estimatedGas := num 100000;
                      estimatedCost := JNum (1 # 1000);
                      estimatedTime := num 1000 |})
  /\ (forall r,
        result (net env (List.length (sent s)) (estimateRequest request)) = Fulfilled r ->
        nullish (data r) = true ->
        fst (estimateComputationCost env request s)
        = Returned {| estimatedGas := num 100000;
                      estimatedCost := JNum (1 # 1000);
                      estimatedTime := num 1000 |})
  /\ (forall r,
        result (net env (List.length (sent s)) (estimateRequest request)) = Fulfilled r ->
        nullish (data r) = false ->
        fst (estimateComputationCost env request s)
        = Returned {| estimatedGas := js_or (propOf (data r) "estimatedGas") (num 100000);
                      estimatedCost :=
                        js_or (propOf (data r) "estimatedCost") (JNum (1 # 1000));
                      estimatedTime :=
                        js_or (propOf (data r) "estimatedTime") (num 1000) |}).
Proof.
  unfold estimateComputationCost, httpPost, tryCatch, bind, httpClient, getProp.
  fold (estimateRequest request).
  destruct (result (net env (List.length (sent s)) (estimateRequest request)))
    as [e | r] eqn:E.
  - split; [eexists _, _; split; [reflexivity|]; repeat split|].
    split; [reflexivity|]. split; intros r H; discriminate.
  - destruct (nullish (data r)) eqn:Hn.
    + split; [eexists _, _; split; [reflexivity|]; repeat split|].
      split; [intros e H; discriminate|].
      split; [reflexivity|]. intros r' H Hn'. injection H as <-. congruence.
    + split.
      * eexists _, _. split; [reflexivity|].
        cbn [estimatedGas estimatedCost estimatedTime sent requested].
        repeat split; apply js_or_truthy; reflexivity.
      * split; [intros e H; discriminate|].
        split; [intros r' H Hn'; injection H as <-; congruence|].
        intros r' H _. injection H as <-. reflexivity.
Qed.

Lemma estimateComputationCost_outcomes_witness :
  fst (estimateComputationCost
         (runtime (script [ok 4 (JObj [("estimatedGas", num 0);
                                       ("estimatedTime", num 250)])]))
         someRequest idle)
  = Returned {| estimatedGas := num 100000;
                estimatedCost := JNum (1 # 1000);
                estimatedTime := num 250 |}.
Proof.
  destruct (estimateComputationCost_outcomes
              (runtime (script [ok 4 (JObj [("estimatedGas", num 0);
                                            ("estimatedTime", num 250)])]))
              someRequest idle) as (_ & _ & _ & H).
  apply (H {| status := 200;
              data := JObj [("estimatedGas", num 0); ("estimatedTime", num 250)] |});
    reflexivity.
Defined.

(** X17. The health handler of the gateway never throws and sends one
    request; it answers [healthy: true] exactly when the health request is
    fulfilled with status 200, so a rejected request and a 204 both read as
    unhealthy. *)
Theorem health_is_status_200 env s :
  exists h s',
    ArciumAPIController.healthCheck env s = (Returned h, s')
    /\ healthCheck env s = (Returned (ArciumAPIController.healthy h), s')
    /\ sent s' = healthRequest :: sent s
    /\ (ArciumAPIController.healthy h = true
        <-> exists r,
              result (net env (List.length (sent s)) healthRequest) = Fulfilled r
              /\ status r = 200).
Proof.
  unfold ArciumAPIController.healthCheck, healthCheck, httpGet, tryCatch, bind,
    httpClient.
  fold healthRequest.
  destruct (result (net env (List.length (sent s)) healthRequest)) as [e | r].
  - eexists _, _. split; [reflexivity|]. split; [reflexivity|]. split; [reflexivity|].
    cbn. split; [discriminate | intros (r & H & _); discriminate].
  - eexists _, _. split; [reflexivity|]. split; [reflexivity|]. split; [reflexivity|].
    cbn [ArciumAPIController.healthy]. split.
    + intros H. exists r. split; [reflexivity | now apply Z.eqb_eq].
    + intros (r' & H & Hs). injection H as <-. now apply Z.eqb_eq.
Qed.

Lemma health_is_status_200_witness :
  exists h s',
    ArciumAPIController.healthCheck
      (runtime (script [{| latency := 8;
                           result := Fulfilled {| status := 204; data := JStr "" |} |}]))
      idle
    = (Returned h, s')
    /\ ArciumAPIController.healthy h = false.
Proof.
  destruct (health_is_status_200
              (runtime (script [{| latency := 8;
                                   result := Fulfilled {| status := 204;
                                                          data := JStr "" |} |}]))
              idle) as (h & s' & Hc & _ & _ & Hiff).
  exists h, s'. split; [exact Hc|].
  destruct (ArciumAPIController.healthy h) eqn:Hh; [|reflexivity].
  destruct (proj1 Hiff eq_refl) as (r & Hr & Hs).
  vm_compute in Hr. injection Hr as <-. discriminate.
Defined.
